(** * claweb: exploration engine, memory store, planner and executor loop

    A shallow embedding of the parts of the claweb sources that the
    specification's testable properties talk about:

    - [src/claweb/storage/database.py]   (SQLiteDatabase, MySQLDatabase)
    - [src/claweb/explorer/explorer.py]  (PageAnalyzer, SiteExplorer, MemoryBasedPlanner)
    - [src/claweb/executor/action_executor.py] (ActionExecutor)
    - [agent.py]                         (WebAgent)

    Python [str] values are modelled as [string] (byte strings); the
    character classes used by [str.lower], [str.split], [str.isdigit],
    [str.strip] and by the [re] module are modelled on the ASCII range.
    Timestamps are left out of the records.  The browser, the tagger and the
    language model are oracles: their answers are inputs of the embedded
    functions. *)

From Stdlib Require Import String Ascii List ZArith Bool Arith Lia.
From Stdlib Require Import Permutation Sorted.
From Stdlib Require Import Floats.PrimFloat.
Import ListNotations.

Local Open Scope string_scope.
Local Open Scope list_scope.

(* ================================================================== *)
(** ** Python string primitives *)
(* ================================================================== *)

Module PyStr.

Definition code (c : ascii) : nat := nat_of_ascii c.

Definition between (lo hi : nat) (c : ascii) : bool :=
  Nat.leb lo (code c) && Nat.leb (code c) hi.

Definition is_upper (c : ascii) : bool := between 65 90 c.
Definition is_lower (c : ascii) : bool := between 97 122 c.
Definition is_alpha (c : ascii) : bool := is_upper c || is_lower c.

(** [str.isdigit] on one character, ASCII range. *)
Definition is_digit (c : ascii) : bool := between 48 57 c.

(** [str.isspace] on one character, ASCII range: TAB, LF, VT, FF, CR,
    FS, GS, RS, US and SPACE. *)
Definition is_space (c : ascii) : bool :=
  between 9 13 c || between 28 31 c || between 32 32 c.

Definition lower_char (c : ascii) : ascii :=
  if is_upper c then ascii_of_nat (code c + 32) else c.

Definition upper_char (c : ascii) : ascii :=
  if is_lower c then ascii_of_nat (code c - 32) else c.

(** [s.lower()] *)
Fixpoint lower (s : string) : string :=
  match s with
  | EmptyString => EmptyString
  | String c s' => String (lower_char c) (lower s')
  end.

(** [s.upper()] *)
Fixpoint upper (s : string) : string :=
  match s with
  | EmptyString => EmptyString
  | String c s' => String (upper_char c) (upper s')
  end.

(** Truthiness of a string: [if s:]. *)
Definition truthy (s : string) : bool :=
  match s with EmptyString => false | _ => true end.

(** [s.startswith(p)] *)
Fixpoint startswith (p s : string) : bool :=
  match p, s with
  | EmptyString, _ => true
  | String a p', String b s' => Ascii.eqb a b && startswith p' s'
  | String _ _, EmptyString => false
  end.

(** [sub in s] *)
Fixpoint contains (sub s : string) : bool :=
  startswith sub s
  || match s with
     | EmptyString => false
     | String _ s' => contains sub s'
     end.

Fixpoint all_chars (p : ascii -> bool) (s : string) : bool :=
  match s with
  | EmptyString => true
  | String c s' => p c && all_chars p s'
  end.

Fixpoint any_char (p : ascii -> bool) (s : string) : bool :=
  match s with
  | EmptyString => false
  | String c s' => p c || any_char p s'
  end.

(** [s.isdigit()]: non-empty and every character a digit. *)
Definition isdigit (s : string) : bool := truthy s && all_chars is_digit s.

(** [s.lstrip(chars)], [s.rstrip(chars)], [s.strip(chars)] with the set of
    stripped characters given as a predicate. *)
Fixpoint lstrip (p : ascii -> bool) (s : string) : string :=
  match s with
  | EmptyString => EmptyString
  | String c s' => if p c then lstrip p s' else s
  end.

Fixpoint rstrip (p : ascii -> bool) (s : string) : string :=
  match s with
  | EmptyString => EmptyString
  | String c s' =>
      match rstrip p s' with
      | EmptyString => if p c then EmptyString else String c EmptyString
      | r => String c r
      end
  end.

Definition strip (p : ascii -> bool) (s : string) : string :=
  rstrip p (lstrip p s).

(** [s.split(sep)] for a one-character separator: always at least one
    field, empty fields are kept. *)
Fixpoint split_on (sep : ascii) (s : string) : list string :=
  match s with
  | EmptyString => [EmptyString]
  | String c s' =>
      if Ascii.eqb c sep then EmptyString :: split_on sep s'
      else match split_on sep s' with
           | [] => [String c EmptyString]
           | w :: ws => String c w :: ws
           end
  end.

(** [s.split()]: maximal runs of non-whitespace characters; [cur] is the
    run being read. *)
Fixpoint split_ws_from (cur : string) (s : string) : list string :=
  match s with
  | EmptyString => if truthy cur then [cur] else []
  | String c s' =>
      if is_space c
      then (if truthy cur then cur :: split_ws_from EmptyString s'
            else split_ws_from EmptyString s')
      else split_ws_from (cur ++ String c EmptyString) s'
  end.

Definition split (s : string) : list string := split_ws_from EmptyString s.

(** [s.find(c)] as a cut: the text before the first character satisfying
    [p], and the rest starting at that character (empty when there is
    none). *)
Fixpoint break_at (p : ascii -> bool) (s : string) : string * string :=
  match s with
  | EmptyString => (EmptyString, EmptyString)
  | String c s' =>
      if p c then (EmptyString, s)
      else let (a, b) := break_at p s' in (String c a, b)
  end.

(** [s.split(c, 1)] when [c in s]: text before and after the first [c]. *)
Definition cut_first (c : ascii) (s : string) : string * string :=
  let (a, b) := break_at (Ascii.eqb c) s in
  (a, match b with EmptyString => EmptyString | String _ b' => b' end).

(** [int(s)] for a string of ASCII digits. *)
Fixpoint int_of_digits_acc (acc : Z) (s : string) : Z :=
  match s with
  | EmptyString => acc
  | String c s' => int_of_digits_acc (10 * acc + Z.of_nat (code c - 48))%Z s'
  end.

Definition int_of_digits (s : string) : Z := int_of_digits_acc 0 s.

End PyStr.

(* ================================================================== *)
(** ** urllib.parse.urlparse *)
(* ================================================================== *)

Module UrlLib.
Import PyStr.

(** The six components of [urllib.parse.ParseResult]. *)
Record ParseResult := mkParseResult {
  scheme : string;
  netloc : string;
  path : string;
  params : string;
  query : string;
  fragment : string
}.

Definition is_scheme_char (c : ascii) : bool :=
  is_alpha c || is_digit c
  || Ascii.eqb c "+" || Ascii.eqb c "-" || Ascii.eqb c ".".

Definition uses_params : list string :=
  [EmptyString; "ftp"; "hdl"; "prospero"; "http"; "imap"; "https"; "shttp";
   "rtsp"; "rtspu"; "sip"; "sips"; "mms"; "sftp"; "tel"].

Definition in_list (s : string) (l : list string) : bool :=
  existsb (String.eqb s) l.

(** Scheme detection of [urlsplit]: the text before the first colon is a
    scheme when it is non-empty, starts with a letter and consists of
    scheme characters. *)
Definition split_scheme (url : string) : string * string :=
  let (before, rest) := break_at (Ascii.eqb ":") url in
  match before, rest with
  | String c0 _, String _ after =>
      if is_alpha c0 && all_chars is_scheme_char before
      then (lower before, after)
      else (EmptyString, url)
  | _, _ => (EmptyString, url)
  end.

Definition is_netloc_delim (c : ascii) : bool :=
  Ascii.eqb c "/" || Ascii.eqb c "?" || Ascii.eqb c "#".

(** [_splitnetloc(url, 2)] guarded by [url[:2] == '//']. *)
Definition split_netloc (url : string) : string * string :=
  match url with
  | String "/" (String "/" rest) => break_at is_netloc_delim rest
  | _ => (EmptyString, url)
  end.

(** Index-free form of [_splitparams]: the parameters start at the first
    semicolon of the last path segment. *)
Fixpoint split_params (url : string) : string * string :=
  match url with
  | EmptyString => (EmptyString, EmptyString)
  | String c rest =>
      if any_char (Ascii.eqb "/") rest
      then let (p, q) := split_params rest in (String c p, q)
      else if Ascii.eqb c ";" then (EmptyString, rest)
      else let (p, q) := cut_first ";" rest in (String c p, q)
  end.

(** Component split of [urllib.parse.urlparse(url)].  The sanitising steps
    of the library (dropping leading control characters and embedded
    TAB/CR/LF, rejecting malformed bracketed hosts) are not part of this
    model. *)
Definition urlparse (url : string) : ParseResult :=
  let (sch, u1) := split_scheme url in
  let (loc, u2) := split_netloc u1 in
  let (u3, frag) := cut_first "#" u2 in
  let (u4, qry) := cut_first "?" u3 in
  let (pth, prm) :=
    if in_list sch uses_params && any_char (Ascii.eqb ";") u4
    then split_params u4 else (u4, EmptyString) in
  mkParseResult sch loc pth prm qry frag.

End UrlLib.

(* ================================================================== *)
(** ** storage/models.py *)
(* ================================================================== *)

Inductive PageType :=
| LOGIN | HOME | LIST | DETAIL | FORM | SEARCH | SETTINGS
| ERROR | AUTH | DASHBOARD | UNKNOWN.

(** [@dataclass class Site] *)
Module Site.
Record t := mk {
  id : option Z;
  domain : string;
  name : string;
  description : string
}.
End Site.

(** [@dataclass class Page] *)
Module Page.
Record t := mk {
  id : option Z;
  site_id : Z;
  url_pattern : string;
  title_pattern : string;
  page_type : PageType;
  semantic_description : string;
  key_features : string;
  sample_url : string;
  visit_count : Z
}.
End Page.

(** [@dataclass class TaskPath] *)
Module TaskPath.
Record t := mk {
  id : option Z;
  site_id : Z;
  task_description : string;
  task_keywords : string;
  action_sequence : string;
  start_page_id : option Z;
  end_page_id : option Z;
  success_count : Z;
  fail_count : Z
}.
End TaskPath.

(* ================================================================== *)
(** ** storage/database.py *)
(* ================================================================== *)

(** A row of the [sites] table. *)
Module SiteRow.
Record t := mk {
  id : Z;
  domain : string;
  name : string;
  description : string
}.
End SiteRow.

(** The tables the modelled queries read and write, rows in rowid order.
    [sites_seq] is the AUTOINCREMENT counter of [sites]: the largest rowid
    handed out so far.  [pages] and [task_paths] hold the rows as
    [_row_to_page] and [_row_to_task_path] return them. *)
Record Store := mkStore {
  sites : list SiteRow.t;
  sites_seq : Z;
  pages : list Page.t;
  task_paths : list TaskPath.t
}.

Definition empty_store : Store := mkStore [] 0 [] [].

(** [SELECT * FROM pages WHERE site_id = ?] *)
Definition select_pages (db : Store) (site_id : Z) : list Page.t :=
  filter (fun p => Z.eqb (Page.site_id p) site_id) (pages db).

(** [SELECT * FROM task_paths WHERE site_id = ?] *)
Definition select_task_paths (db : Store) (site_id : Z) : list TaskPath.t :=
  filter (fun t => Z.eqb (TaskPath.site_id t) site_id) (task_paths db).

(** [SELECT * FROM sites WHERE domain = ?] followed by [fetchone()] *)
Definition select_site (db : Store) (domain : string) : option SiteRow.t :=
  find (fun r => String.eqb (SiteRow.domain r) domain) (sites db).

(** Case-insensitive title test shared by both backends:
    [title and page.title_pattern and title.lower() in page.title_pattern.lower()] *)
Definition title_matches (title : string) (page : Page.t) : bool :=
  PyStr.truthy title
  && PyStr.truthy (Page.title_pattern page)
  && PyStr.contains (PyStr.lower title) (PyStr.lower (Page.title_pattern page)).

Module SQLiteDatabase.

Section WithUrlparse.

(** [urllib.parse.urlparse], a function of the Python library. *)
Variable urlparse : string -> UrlLib.ParseResult.

(** [urlparse(u).path.strip('/').split('/')] *)
Definition path_parts (u : string) : list string :=
  PyStr.split_on "/" (PyStr.strip (Ascii.eqb "/") (UrlLib.path (urlparse u))).

(** Largest rowid present in [sites]. *)
Definition max_rowid (rows : list SiteRow.t) : Z :=
  fold_right (fun r m => Z.max (SiteRow.id r) m) 0%Z rows.

(** Rowid given to the next inserted [sites] row (AUTOINCREMENT). *)
Definition next_site_id (db : Store) : Z :=
  (Z.max (sites_seq db) (max_rowid (sites db)) + 1)%Z.

Definition get_or_create_site (db : Store) (domain name description : string)
  : Site.t * Store :=
  match select_site db domain with
  | Some row =>
      (Site.mk (Some (SiteRow.id row)) (SiteRow.domain row)
               (SiteRow.name row) (SiteRow.description row), db)
  | None =>
      let name' := if PyStr.truthy name then name else domain in
      let lastrowid := next_site_id db in
      (Site.mk (Some lastrowid) domain name' description,
       mkStore (sites db ++ [SiteRow.mk lastrowid domain name' description])
               lastrowid (pages db) (task_paths db))
  end.

(** The loop body of [_url_matches_pattern] over [zip(url_parts, pattern_parts)]. *)
Fixpoint parts_match (url_parts pattern_parts : list string) : bool :=
  match url_parts, pattern_parts with
  | u :: us, p :: ps =>
      if String.eqb p "*" || String.eqb p u then parts_match us ps
      else if PyStr.isdigit u && PyStr.isdigit p then parts_match us ps
      else false
  | _, _ => true
  end.

Definition _url_matches_pattern (url pattern : string) : bool :=
  if negb (PyStr.truthy pattern) then false
  else
    let url_parts := path_parts url in
    let pattern_parts := path_parts pattern in
    if negb (Nat.eqb (length url_parts) (length pattern_parts)) then false
    else parts_match url_parts pattern_parts.

(** The [for row in self.cursor.fetchall()] loop of [find_similar_page]. *)
Fixpoint scan_similar (url title : string) (rows : list Page.t) : option Page.t :=
  match rows with
  | [] => None
  | page :: rest =>
      if _url_matches_pattern url (Page.url_pattern page) then Some page
      else if title_matches title page then Some page
      else scan_similar url title rest
  end.

Definition find_similar_page (db : Store) (site_id : Z) (url title : string)
  : option Page.t :=
  scan_similar url title (select_pages db site_id).

(** [sum(1 for kw in keywords if kw in task_path.task_keywords.lower())] *)
Definition keyword_score (keywords : list string) (task_path : TaskPath.t) : nat :=
  length (filter (fun kw => PyStr.contains kw (PyStr.lower (TaskPath.task_keywords task_path)))
                 keywords).

(** The scoring loop of [find_task_path], threading [best_match] and
    [best_score]. *)
Fixpoint best_loop (keywords : list string) (rows : list TaskPath.t)
  (best_match : option TaskPath.t) (best_score : nat)
  : option TaskPath.t * nat :=
  match rows with
  | [] => (best_match, best_score)
  | task_path :: rest =>
      let score := keyword_score keywords task_path in
      if Nat.ltb best_score score
      then best_loop keywords rest (Some task_path) score
      else best_loop keywords rest best_match best_score
  end.

Definition find_task_path (db : Store) (site_id : Z) (task_description : string)
  : option TaskPath.t :=
  let keywords := PyStr.split (PyStr.lower task_description) in
  let (best_match, best_score) :=
    best_loop keywords (select_task_paths db site_id) None 0 in
  if Nat.ltb 0 best_score then best_match else None.

End WithUrlparse.

End SQLiteDatabase.

Module MySQLDatabase.

(** The [for row in self.cursor.fetchall()] loop of [find_similar_page]. *)
Fixpoint scan_similar (title : string) (rows : list Page.t) : option Page.t :=
  match rows with
  | [] => None
  | page :: rest =>
      if title_matches title page then Some page
      else scan_similar title rest
  end.

Definition find_similar_page (db : Store) (site_id : Z) (url title : string)
  : option Page.t :=
  scan_similar title (select_pages db site_id).

End MySQLDatabase.

(* ================================================================== *)
(** ** JSON values as [json.loads] returns them *)
(* ================================================================== *)

#[local] Unset Elimination Schemes.
Inductive json :=
| JNull
| JBool (b : bool)
| JInt (z : Z)
| JFloat (f : float)
| JStr (s : string)
| JArr (items : list json)
| JObj (fields : list (string * json)).
#[local] Set Elimination Schemes.

(** A Python [dict] with string keys, as an association list. *)
Definition dict := list (string * json).

(** [d.get(key)] *)
Fixpoint dict_get (d : dict) (key : string) : option json :=
  match d with
  | [] => None
  | (k, v) :: rest => if String.eqb k key then Some v else dict_get rest key
  end.

(** [d.get(key, default)] *)
Definition dict_get_default (d : dict) (key : string) (default : json) : json :=
  match dict_get d key with Some v => v | None => default end.

(** Truth value of a Python object that came out of [json.loads]. *)
Definition json_truthy (v : json) : bool :=
  match v with
  | JNull => false
  | JBool b => b
  | JInt z => negb (Z.eqb z 0)
  | JFloat f => negb (PrimFloat.eqb f 0%float)
  | JStr s => PyStr.truthy s
  | JArr items => match items with [] => false | _ => true end
  | JObj fields => match fields with [] => false | _ => true end
  end.

(** What a call of the language model can do: raise, or return a string or
    nothing. *)
Inductive LLMOutcome :=
| LLMRaises
| LLMReturns (response : option string).

(* ================================================================== *)
(** ** explorer/explorer.py *)
(* ================================================================== *)

(** [re.search(r'\{[\s\S]*\}', response)]: the match starts at the first
    opening brace and, the star being greedy, ends at the last closing
    brace of the text. *)
Module JsonSearch.

(** Suffix of [s] starting at the first occurrence of [c]. *)
Fixpoint from_first (c : ascii) (s : string) : option string :=
  match s with
  | EmptyString => None
  | String a s' => if Ascii.eqb a c then Some s else from_first c s'
  end.

(** Prefix of [s] ending at the last occurrence of [c]. *)
Fixpoint through_last (c : ascii) (s : string) : option string :=
  match s with
  | EmptyString => None
  | String a s' =>
      match through_last c s' with
      | Some r => Some (String a r)
      | None => if Ascii.eqb a c then Some (String a EmptyString) else None
      end
  end.

(** [json_match.group()] when the search succeeds, [None] otherwise. *)
Definition search (response : string) : option string :=
  match from_first "{" response with
  | Some (String b rest) =>
      match through_last "}" rest with
      | Some r => Some (String b r)
      | None => None
      end
  | _ => None
  end.

End JsonSearch.

Section WithJsonLoads.

(** [json.loads] on a text that starts with an opening brace: the decoded
    object, or [None] when it raises. *)
Variable json_loads : string -> option dict.

(** The body shared by [analyze_page] and [plan_task]: the [try] block
    around the model call, with the record returned after it. *)
Definition parse_or_default (default : dict) (outcome : LLMOutcome) : dict :=
  match outcome with
  | LLMRaises => default
  | LLMReturns None => default
  | LLMReturns (Some response) =>
      if PyStr.truthy response then
        match JsonSearch.search response with
        | Some text =>
            match json_loads text with
            | Some v => v
            | None => default
            end
        | None => default
        end
      else default
  end.

End WithJsonLoads.

Module PageAnalyzer.

Definition default_page_info : dict :=
  [ ("page_type", JStr "unknown");
    ("page_description", JStr "无法分析的页面");
    ("key_features", JArr []);
    ("has_sidebar_nav", JBool false);
    ("sidebar_nav_items", JArr []);
    ("important_elements", JArr []);
    ("suggested_explorations", JArr []) ].

(** [analyze_page], given what [self.llm.analyze_with_vision] does. *)
Definition analyze_page (json_loads : string -> option dict)
  (outcome : LLMOutcome) : dict :=
  parse_or_default json_loads default_page_info outcome.

End PageAnalyzer.

Module MemoryBasedPlanner.

Definition cannot_plan : dict :=
  [ ("can_plan", JBool false);
    ("confidence", JFloat 0%float);
    ("plan", JArr []);
    ("unknown_steps", JArr [JStr "无法解析规划结果"]) ].

(** [plan_task], given what [self.llm.chat(prompt)] does.  The prompt is
    assembled from the store before the [try] block and only reaches the
    model. *)
Definition plan_task (json_loads : string -> option dict)
  (outcome : LLMOutcome) : dict :=
  parse_or_default json_loads cannot_plan outcome.

End MemoryBasedPlanner.

Module SiteExplorer.

Inductive ItemType := nav | crud | action.

(** An entry of [self.pending_items]. *)
Record Item := mkItem {
  name : string;
  xpath : string;
  priority : Z;
  element_id : Z;
  source_page_id : Z;
  source_url : string;
  item_type : ItemType;
  crud_type : string;
  text : string
}.

(** One element description returned by [analyze_elements], with the
    defaults of [elem_info.get] applied. *)
Record ElemInfo := mkElemInfo {
  tag_id : option Z;
  semantic_name : string;
  is_nav_menu : bool;
  is_crud_action : bool;
  info_crud_type : string;
  explore_priority : Z;
  text_or_hint : string
}.

(** [f"{page_id}:{semantic_name}"], kept as a pair. *)
Definition ItemKey := (Z * string)%type.

Definition key_eqb (a b : ItemKey) : bool :=
  Z.eqb (fst a) (fst b) && String.eqb (snd a) (snd b).

Definition key_in (k : ItemKey) (visited : list ItemKey) : bool :=
  existsb (key_eqb k) visited.

(** Insertion of [x] into a list sorted by decreasing [key]; [x] stood
    before the elements of [l] and stays before those with an equal key. *)
Fixpoint insert_desc (key : Item -> Z) (x : Item) (l : list Item) : list Item :=
  match l with
  | [] => [x]
  | y :: l' =>
      if Z.ltb (key x) (key y) then y :: insert_desc key x l'
      else x :: l
  end.

(** [l.sort(key=key, reverse=True)]: a stable sort by decreasing key. *)
Fixpoint sort_desc (key : Item -> Z) (l : list Item) : list Item :=
  match l with
  | [] => []
  | x :: l' => insert_desc key x (sort_desc key l')
  end.

(** The sort key of [_analyze_and_collect_items]. *)
Definition rank_key (x : Item) : Z :=
  match item_type x with
  | nav => 10
  | _ =>
      if String.eqb (crud_type x) "create" then 9
      else if String.eqb (crud_type x) "read" || String.eqb (crud_type x) "update" then 8
      else if String.eqb (crud_type x) "delete" then 7
      else priority x
  end%Z.

(** The sort key of [_analyze_after_click]. *)
Definition priority_key (x : Item) : Z := priority x.

Definition xpath_truthy (x : option string) : bool :=
  match x with Some s => PyStr.truthy s | None => false end.

(** [(is_nav or is_crud or priority >= 7) and xpath and item_key not in self.visited_items] *)
Definition should_explore (visited_items : list ItemKey) (page_id : Z)
  (e : ElemInfo) (xp : option string) : bool :=
  (is_nav_menu e || is_crud_action e || Z.leb 7 (explore_priority e))
  && xpath_truthy xp
  && negb (key_in (page_id, semantic_name e) visited_items).

(** ["crud" if is_crud else ("nav" if is_nav else "action")] *)
Definition item_type_of (e : ElemInfo) : ItemType :=
  if is_crud_action e then crud else if is_nav_menu e then nav else action.

Definition make_item (page_id : Z) (current_url : string) (eid : Z)
  (e : ElemInfo) (xp : string) : Item :=
  mkItem (semantic_name e) xp (explore_priority e) eid page_id current_url
         (item_type_of e) (info_crud_type e) (text_or_hint e).

Section Collect.

Variable tag_to_xpath : Z -> option string.
Variable visited_items : list ItemKey.
Variable page_id : Z.
Variable current_url : string.

(** The [for elem_info in elements_info] loop of
    [_analyze_and_collect_items].  [next_eid] is the id the store gives to
    the next saved element. *)
Fixpoint collect_loop (elements_info : list ElemInfo) (next_eid : Z)
  (pending_items : list Item) : list Item * Z :=
  match elements_info with
  | [] => (pending_items, next_eid)
  | e :: rest =>
      match tag_id e with
      | None => collect_loop rest next_eid pending_items
      | Some tag =>
          let xp := tag_to_xpath tag in
          let eid := next_eid in
          if should_explore visited_items page_id e xp
          then collect_loop rest (eid + 1)%Z
                 (pending_items
                  ++ [make_item page_id current_url eid e
                        (match xp with Some s => s | None => EmptyString end)])
          else collect_loop rest (eid + 1)%Z pending_items
      end
  end.

(** [pending_items] after the [if tagged_screenshot and tag_to_xpath:] block
    of [_analyze_and_collect_items]. *)
Definition _analyze_and_collect_items (elements_info : list ElemInfo)
  (next_eid : Z) (pending_items : list Item) : list Item * Z :=
  let (pending', eid') := collect_loop elements_info next_eid pending_items in
  (sort_desc rank_key pending', eid').

(** [any(n["name"] == semantic_name and n["source_page_id"] == page_model.id
         for n in self.pending_items)] *)
Definition existing (pending_items : list Item) (e : ElemInfo) : bool :=
  existsb (fun n => String.eqb (name n) (semantic_name e)
                    && Z.eqb (source_page_id n) page_id) pending_items.

(** The [for elem_info in elements_info] loop of [_analyze_after_click],
    counting [new_items]. *)
Fixpoint collect_after_click_loop (elements_info : list ElemInfo) (next_eid : Z)
  (pending_items : list Item) (new_items : nat) : list Item * Z * nat :=
  match elements_info with
  | [] => (pending_items, next_eid, new_items)
  | e :: rest =>
      match tag_id e with
      | None => collect_after_click_loop rest next_eid pending_items new_items
      | Some tag =>
          let xp := tag_to_xpath tag in
          let eid := next_eid in
          if should_explore visited_items page_id e xp
             && negb (existing pending_items e)
          then collect_after_click_loop rest (eid + 1)%Z
                 (pending_items
                  ++ [make_item page_id current_url eid e
                        (match xp with Some s => s | None => EmptyString end)])
                 (S new_items)
          else collect_after_click_loop rest (eid + 1)%Z pending_items new_items
      end
  end.

(** [pending_items] after the [if tagged_screenshot and tag_to_xpath:] block
    of [_analyze_after_click]. *)
Definition _analyze_after_click (elements_info : list ElemInfo)
  (next_eid : Z) (pending_items : list Item) : list Item * Z :=
  match collect_after_click_loop elements_info next_eid pending_items 0 with
  | (pending', eid', new_items) =>
      if Nat.ltb 0 new_items then (sort_desc priority_key pending', eid')
      else (pending', eid')
  end.

End Collect.

Section WithUrlparse.

Variable urlparse : string -> UrlLib.ParseResult.

Definition _normalize_url (url : string) : string :=
  let parsed := urlparse url in
  if PyStr.truthy (UrlLib.fragment parsed)
  then UrlLib.scheme parsed ++ "://" ++ UrlLib.netloc parsed ++ UrlLib.path parsed
       ++ "#" ++ hd EmptyString (PyStr.split_on "?" (UrlLib.fragment parsed))
  else UrlLib.scheme parsed ++ "://" ++ UrlLib.netloc parsed ++ UrlLib.path parsed.

End WithUrlparse.

End SiteExplorer.

(* ================================================================== *)
(** ** executor/action_executor.py *)
(* ================================================================== *)

Module ActionExecutor.
Import PyStr.

(** *** The compiled patterns

    Each pattern is a matcher anchored at the start of its argument;
    [search] tries it at every position from left to right, as
    [pattern.search(action)] does.  All patterns are compiled with
    [re.IGNORECASE]. *)

Fixpoint search {A : Type} (m : string -> option A) (s : string) : option A :=
  match m s with
  | Some r => Some r
  | None =>
      match s with
      | EmptyString => None
      | String _ s' => search m s'
      end
  end.

(** A literal keyword, ignoring case; returns the text after it. *)
Fixpoint lit_ci (kw s : string) : option string :=
  match kw, s with
  | EmptyString, _ => Some s
  | String a kw', String b s' =>
      if Ascii.eqb (lower_char a) (lower_char b) then lit_ci kw' s' else None
  | String _ _, EmptyString => None
  end.

(** Longest prefix of characters satisfying [p], and the rest. *)
Fixpoint span (p : ascii -> bool) (s : string) : string * string :=
  match s with
  | EmptyString => (EmptyString, EmptyString)
  | String c s' =>
      if p c then let (a, b) := span p s' in (String c a, b)
      else (EmptyString, s)
  end.

(** [\s*] *)
Definition skip_spaces (s : string) : string := lstrip is_space s.

Definition is_sigil (c : ascii) : bool :=
  Ascii.eqb c "@" || Ascii.eqb c "#" || Ascii.eqb c "$" || Ascii.eqb c "%".

Definition is_quote (c : ascii) : bool :=
  Ascii.eqb c (ascii_of_nat 34) || Ascii.eqb c "'".

Definition is_newline (c : ascii) : bool := Ascii.eqb c (ascii_of_nat 10).

(** [\s*\[[@#$%]?(\d+)\]]: the digits and the text after the bracket. *)
Definition bracket_tag (s : string) : option (string * string) :=
  match skip_spaces s with
  | String "[" r1 =>
      let r2 := match r1 with
                | String c r' => if is_sigil c then r' else r1
                | EmptyString => r1
                end in
      let (digits, r3) := span is_digit r2 in
      if truthy digits then
        match r3 with
        | String "]" r4 => Some (digits, r4)
        | _ => None
        end
      else None
  | _ => None
  end.

(** The tail of the lazy group [(.+?)] and the quote class that closes it,
    after the group's first character: the text up to the first single or
    double quote, on one line. *)
Fixpoint until_quote (s : string) : option string :=
  match s with
  | EmptyString => None
  | String c s' =>
      if is_quote c then Some EmptyString
      else if is_newline c then None
      else match until_quote s' with
           | Some t => Some (String c t)
           | None => None
           end
  end.

(** [\s*Q(.+?)Q], where [Q] is the class of the single and the double
    quote: the captured text. *)
Definition quoted (s : string) : option string :=
  match skip_spaces s with
  | String q (String c0 r) =>
      if is_quote q && negb (is_newline c0) then
        match until_quote r with
        | Some t => Some (String c0 t)
        | None => None
        end
      else None
  | _ => None
  end.

(** [DONE_PATTERN = re.compile(r"DONE", re.IGNORECASE)] *)
Definition DONE_PATTERN (s : string) : option unit :=
  match lit_ci "DONE" s with Some _ => Some tt | None => None end.

(** [PAUSE_PATTERN = re.compile(r"PAUSE", re.IGNORECASE)] *)
Definition PAUSE_PATTERN (s : string) : option unit :=
  match lit_ci "PAUSE" s with Some _ => Some tt | None => None end.

(** [WAIT_PATTERN = re.compile(r"WAIT\s*(\d+)?", re.IGNORECASE)]: group 1,
    which may be absent. *)
Definition WAIT_PATTERN (s : string) : option (option string) :=
  match lit_ci "WAIT" s with
  | Some rest =>
      let (digits, _) := span is_digit (skip_spaces rest) in
      Some (if truthy digits then Some digits else None)
  | None => None
  end.

(** [CLICK_PATTERN = re.compile(r"CLICK\s*\[[@#$%]?(\d+)\]", re.IGNORECASE)] *)
Definition CLICK_PATTERN (s : string) : option string :=
  match lit_ci "CLICK" s with
  | Some rest =>
      match bracket_tag rest with
      | Some (digits, _) => Some digits
      | None => None
      end
  | None => None
  end.

(** [TYPE_PATTERN]: [TYPE\s*\[[@#$%]?(\d+)\]\s*Q(.+?)Q], ignoring case. *)
Definition TYPE_PATTERN (s : string) : option (string * string) :=
  match lit_ci "TYPE" s with
  | Some rest =>
      match bracket_tag rest with
      | Some (digits, rest') =>
          match quoted rest' with
          | Some t => Some (digits, t)
          | None => None
          end
      | None => None
      end
  | None => None
  end.

(** [SCROLL_PATTERN = re.compile(r"SCROLL\s+(UP|DOWN)", re.IGNORECASE)] *)
Definition SCROLL_PATTERN (s : string) : option string :=
  match lit_ci "SCROLL" s with
  | Some (String c rest) =>
      if is_space c then
        let r := skip_spaces rest in
        match lit_ci "UP" r with
        | Some _ => Some (substring 0 2 r)
        | None =>
            match lit_ci "DOWN" r with
            | Some _ => Some (substring 0 4 r)
            | None => None
            end
        end
      else None
  | _ => None
  end.

(** [GOTO_PATTERN]: [GOTO\s*Q(.+?)Q], ignoring case. *)
Definition GOTO_PATTERN (s : string) : option string :=
  match lit_ci "GOTO" s with
  | Some rest => quoted rest
  | None => None
  end.

(** *** The browser page as an oracle: which Playwright calls raise. *)
Record PageOracle := mkPageOracle {
  click_raises : string -> bool;
  clear_raises : string -> bool;
  fill_raises : string -> string -> bool;
  wheel_raises : Z -> bool;
  goto_raises : string -> bool
}.

(** What [execute] does to the outside world, in order.  Sleeps are in
    milliseconds. *)
Inductive Effect :=
| EPrompt
| ESleep (ms : Z)
| EClick (xpath : string)
| EClear (xpath : string)
| EFill (xpath text : string)
| EWheel (delta : Z)
| EGoto (url : string).

(** The second component of the returned tuple; each constructor stands for
    one of the message templates of the source. *)
Inductive Message :=
| TaskDone
| ManualDone
| Waited (seconds : Z)
| NoElement (tag_id : Z)
| Clicked (tag_id : Z)
| ClickFailed (tag_id : Z)
| Typed (tag_id : Z)
| TypeFailed (tag_id : Z)
| Scrolled (direction : string)
| ScrollFailed
| Navigated (url : string)
| NavigateFailed (url : string)
| CannotParse (action : string).

Record Outcome := mkOutcome {
  done : bool;
  message : Message;
  effects : list Effect
}.

Section WithPage.

Variable page : PageOracle.
Variable tag_to_xpath : Z -> option string.

(** [tag_to_xpath.get(tag_id)] followed by [if not xpath] *)
Definition lookup (tag_id : Z) : option string :=
  match tag_to_xpath tag_id with
  | Some x => if truthy x then Some x else None
  | None => None
  end.

Definition _click (tag_id : Z) : Outcome :=
  match lookup tag_id with
  | None => mkOutcome false (NoElement tag_id) []
  | Some xpath =>
      if click_raises page xpath
      then mkOutcome false (ClickFailed tag_id) [EClick xpath]
      else mkOutcome false (Clicked tag_id) [EClick xpath; ESleep 1000]
  end.

Definition _type (tag_id : Z) (text : string) : Outcome :=
  match lookup tag_id with
  | None => mkOutcome false (NoElement tag_id) []
  | Some xpath =>
      if clear_raises page xpath
      then mkOutcome false (TypeFailed tag_id) [EClear xpath]
      else if fill_raises page xpath text
      then mkOutcome false (TypeFailed tag_id) [EClear xpath; EFill xpath text]
      else mkOutcome false (Typed tag_id)
             [EClear xpath; EFill xpath text; ESleep 500]
  end.

Definition _scroll (direction : string) : Outcome :=
  let delta := if String.eqb direction "UP" then (-500)%Z else 500%Z in
  if wheel_raises page delta
  then mkOutcome false ScrollFailed [EWheel delta]
  else mkOutcome false (Scrolled direction) [EWheel delta; ESleep 500].

Definition _goto (url : string) : Outcome :=
  let url := if startswith "http://" url || startswith "https://" url
             then url else String.append "https://" url in
  if goto_raises page url
  then mkOutcome false (NavigateFailed url) [EGoto url]
  else mkOutcome false (Navigated url) [EGoto url; ESleep 1000].

Definition execute (action : string) : Outcome :=
  let action := strip is_space action in
  match search DONE_PATTERN action with
  | Some _ => mkOutcome true TaskDone []
  | None =>
  match search PAUSE_PATTERN action with
  | Some _ => mkOutcome false ManualDone [EPrompt; ESleep 1000]
  | None =>
  match search WAIT_PATTERN action with
  | Some group1 =>
      let seconds := match group1 with
                     | Some digits => int_of_digits digits
                     | None => 2%Z
                     end in
      let seconds := Z.min seconds 30 in
      mkOutcome false (Waited seconds) [ESleep (seconds * 1000)]
  | None =>
  match search CLICK_PATTERN action with
  | Some digits => _click (int_of_digits digits)
  | None =>
  match search TYPE_PATTERN action with
  | Some (digits, text) => _type (int_of_digits digits) text
  | None =>
  match search SCROLL_PATTERN action with
  | Some group1 => _scroll (upper group1)
  | None =>
  match search GOTO_PATTERN action with
  | Some url => _goto url
  | None => mkOutcome false (CannotParse action) []
  end end end end end end end.

End WithPage.

End ActionExecutor.

(* ================================================================== *)
(** ** agent.py *)
(* ================================================================== *)

Module WebAgent.

(** The attributes of [WebAgent] that [execute_task] tests. *)
Record Agent := mkAgent {
  page_started : bool;
  _use_memory : bool;
  current_site : option Site.t;
  planner : bool
}.

(** [self._max_steps = 20] *)
Definition _max_steps : nat := 20.

(** The literal [0.6] of [execute_task], a binary64 value. *)
Definition confidence_threshold : float := 0x1.3333333333333p-1%float.

(** [value > 0.6] for a value that came out of [json.loads]; [None] when
    Python raises [TypeError]. *)
Definition exceeds_threshold (value : json) : option bool :=
  match value with
  | JFloat f => Some (PrimFloat.ltb confidence_threshold f)
  | JInt z => Some (Z.leb 1 z)
  | JBool b => Some b
  | _ => None
  end.

(** How [execute_task] ends: with a message of its own, by an exception, or
    by handing the task to one of the two execution modes. *)
Inductive Dispatch :=
| BrowserNotStarted
| RaisesTypeError
| PlannedExecution (plan : dict)
| LiveExecution.

(** [if plan.get("can_plan") and plan.get("confidence", 0) > 0.6:] *)
Definition select_mode (plan : dict) : Dispatch :=
  let can_plan := match dict_get plan "can_plan" with
                  | Some v => json_truthy v
                  | None => false
                  end in
  if can_plan then
    match exceeds_threshold (dict_get_default plan "confidence" (JInt 0)) with
    | Some true => PlannedExecution plan
    | Some false => LiveExecution
    | None => RaisesTypeError
    end
  else LiveExecution.

(** [execute_task], given the reply of the model to the planning prompt. *)
Definition execute_task (json_loads : string -> option dict) (self : Agent)
  (plan_reply : LLMOutcome) : Dispatch :=
  if negb (page_started self) then BrowserNotStarted
  else if _use_memory self
          && (match current_site self with Some _ => true | None => false end)
          && planner self
  then select_mode (MemoryBasedPlanner.plan_task json_loads plan_reply)
  else LiveExecution.

(** What one run of the live loop meets: [self._running] at each loop test,
    and in each iteration the browser page, its URL, the tag map of
    [tag_page] and the action the model answers.  Loop tests are numbered
    by the steps already made, iterations by their step number. *)
Record Session := mkSession {
  running : nat -> bool;
  page_at : nat -> option ActionExecutor.PageOracle;
  url_at : nat -> string;
  tags_at : nat -> Z -> option string;
  llm_action : nat -> string
}.

(** An entry of [action_history]. *)
Record HistoryEntry := mkEntry {
  entry_step : nat;
  entry_url : string;
  entry_action : string;
  entry_result : ActionExecutor.Message
}.

(** The strings [_execute_without_memory] returns. *)
Inductive Result :=
| NoBrowser
| Completed (steps : nat)
| MaxStepsReached (max_steps : nat).

(** The [while self._running and step < self._max_steps] loop;
    [remaining] is [self._max_steps - step]. *)
Fixpoint live_loop (s : Session) (remaining step : nat)
  (action_history : list HistoryEntry) : Result * list HistoryEntry :=
  match remaining with
  | O => (MaxStepsReached _max_steps, action_history)
  | S remaining' =>
      if running s step then
        let step := S step in
        match page_at s step with
        | None => (NoBrowser, action_history)
        | Some page =>
            let action := llm_action s step in
            let out := ActionExecutor.execute page (tags_at s step) action in
            let action_history :=
              action_history
              ++ [mkEntry step (url_at s step) action (ActionExecutor.message out)] in
            if ActionExecutor.done out then (Completed step, action_history)
            else live_loop s remaining' step action_history
        end
      else (MaxStepsReached _max_steps, action_history)
  end.

Definition _execute_without_memory (s : Session) : Result * list HistoryEntry :=
  live_loop s _max_steps 0 [].

End WebAgent.

(* ================================================================== *)
(** ** Vocabulary of the specification *)
(* ================================================================== *)

(** The pattern-matching rule on one pair of path segments: equal, or the
    pattern segment is the wildcard token, or both are numeric. *)
Definition segment_ok (u p : string) : Prop :=
  p = "*" \/ p = u \/ (PyStr.isdigit u = true /\ PyStr.isdigit p = true).

(** A page is similar to the query when its URL pattern or its title
    matches. *)
Definition page_similar (urlparse : string -> UrlLib.ParseResult)
  (url title : string) (page : Page.t) : bool :=
  SQLiteDatabase._url_matches_pattern urlparse url (Page.url_pattern page)
  || title_matches title page.

(** Number of [sites] rows with a given domain. *)
Definition count_domain (domain : string) (rows : list SiteRow.t) : nat :=
  length (filter (fun r => String.eqb (SiteRow.domain r) domain) rows).

(** The UNIQUE constraint on [sites.domain]. *)
Definition unique_domains (db : Store) : Prop :=
  NoDup (map SiteRow.domain (sites db)).

(** The store after [n] successive calls of [get_or_create_site] with the
    same arguments. *)
Fixpoint after_calls (n : nat) (db : Store) (domain name description : string)
  : Store :=
  match n with
  | O => db
  | S n' =>
      after_calls n'
        (snd (SQLiteDatabase.get_or_create_site db domain name description))
        domain name description
  end.

(** A token of [str.split()]: non-empty and free of whitespace. *)
Definition is_token (kw : string) : Prop :=
  kw <> EmptyString
  /\ PyStr.all_chars (fun c => negb (PyStr.is_space c)) kw = true.

(** The text matched by a greedy brace search in [response]: it starts at
    the first opening brace and ends at the last closing brace. *)
Definition greedy_span (response text : string) : Prop :=
  exists pre mid post,
    response = (pre ++ text ++ post)%string
    /\ text = String "{" (mid ++ "}")%string
    /\ PyStr.any_char (Ascii.eqb "{") pre = false
    /\ PyStr.any_char (Ascii.eqb "}") post = false.

(** The specification's reading of the extraction: the first block whose
    braces balance.  [depth] counts the braces still open. *)
Fixpoint balanced_prefix (depth : nat) (s : string) : option string :=
  match s with
  | EmptyString => None
  | String c s' =>
      if Ascii.eqb c "{" then
        option_map (String c) (balanced_prefix (S depth) s')
      else if Ascii.eqb c "}" then
        match depth with
        | O => None
        | S O => Some (String c EmptyString)
        | S d => option_map (String c) (balanced_prefix d s')
        end
      else option_map (String c) (balanced_prefix depth s')
  end.

Definition first_balanced_block (response : string) : option string :=
  match JsonSearch.from_first "{" response with
  | Some s => balanced_prefix 0 s
  | None => None
  end.

(** [a] may stand before [b] in a list sorted by decreasing [key]. *)
Definition key_ge (key : SiteExplorer.Item -> Z) (a b : SiteExplorer.Item) : Prop :=
  (key b <= key a)%Z.

(** [word] has no character that [strip] removes when it strips the
    characters satisfying [p]. *)
Definition unstrippable (p : ascii -> bool) (word : string) : Prop :=
  PyStr.all_chars (fun c => negb (p c)) word = true.

(** Whether a pattern search found a match. *)
Definition found {A : Type} (r : option A) : bool :=
  match r with Some _ => true | None => false end.


(** The action contains DONE in any letter case. *)
Definition mentions_done (action : string) : bool :=
  PyStr.contains "done" (PyStr.lower action).

(** All orders in which the elements of a list can be inserted. *)
Fixpoint insert_everywhere {A : Type} (x : A) (l : list A) : list (list A) :=
  match l with
  | [] => [[x]]
  | y :: l' => (x :: l) :: map (cons y) (insert_everywhere x l')
  end.

Fixpoint all_orders {A : Type} (l : list A) : list (list A) :=
  match l with
  | [] => [[]]
  | x :: l' => flat_map (insert_everywhere x) (all_orders l')
  end.

(* ================================================================== *)
(** ** Sample data used by the worked examples *)
(* ================================================================== *)

Module Samples.

Definition page (id : Z) (url_pattern title_pattern : string) : Page.t :=
  Page.mk (Some id) 1 url_pattern title_pattern UNKNOWN
          EmptyString EmptyString url_pattern 1.

Definition home_page : Page.t := page 1 "http://shop.example/home" "Home Page".
Definition order_page : Page.t := page 2 "http://shop.example/order/12" "Orders".

Definition two_pages : Store := mkStore [] 0 [home_page; order_page] [].

Definition task_path (id : Z) (description : string) : TaskPath.t :=
  TaskPath.mk (Some id) 1 description description "[]" None None 1 0.

Definition three_paths : Store :=
  mkStore [] 0 []
    [task_path 1 "search product"; task_path 2 "Search Product now";
     task_path 3 "delete user"].

(** The four pending items of the specification's ordering example, as the
    element descriptions that produce them. *)
Definition e_action : SiteExplorer.ElemInfo :=
  SiteExplorer.mkElemInfo (Some 1%Z) "Export" false false "none" 8 "Export".
Definition e_nav : SiteExplorer.ElemInfo :=
  SiteExplorer.mkElemInfo (Some 2%Z) "Reports" true false "none" 1 "Reports".
Definition e_delete : SiteExplorer.ElemInfo :=
  SiteExplorer.mkElemInfo (Some 3%Z) "Remove" false true "delete" 9 "Remove".
Definition e_create : SiteExplorer.ElemInfo :=
  SiteExplorer.mkElemInfo (Some 4%Z) "New Task" false true "create" 2 "New".

Definition every_tag (tag : Z) : option string := Some "//*[@data-tag]".

Definition item_of (eid : Z) (e : SiteExplorer.ElemInfo) : SiteExplorer.Item :=
  SiteExplorer.make_item 1 "http://shop.example/home" eid e "//*[@data-tag]".

Definition i_action := item_of 1 e_action.
Definition i_nav := item_of 2 e_nav.
Definition i_delete := item_of 3 e_delete.
Definition i_create := item_of 4 e_create.

Definition quiet_page : ActionExecutor.PageOracle :=
  ActionExecutor.mkPageOracle (fun _ => false) (fun _ => false)
    (fun _ _ => false) (fun _ => false) (fun _ => false).

(** A session whose model always answers [action]. *)
Definition constant_session (action : string) : WebAgent.Session :=
  WebAgent.mkSession (fun _ => true) (fun _ => Some quiet_page)
    (fun _ => "http://shop.example/home") (fun _ => every_tag) (fun _ => action).


Definition ready_agent : WebAgent.Agent :=
  WebAgent.mkAgent true true
    (Some (Site.mk (Some 1%Z) "shop.example" "shop.example" EmptyString)) true.

(** The binary64 values of the literals 0.55, 0.6 and 0.61. *)
Definition confidence_0_55 : float := 0x1.199999999999ap-1%float.
Definition confidence_0_6 : float := 0x1.3333333333333p-1%float.
Definition confidence_0_61 : float := 0x1.3851eb851eb85p-1%float.

Definition plan_with (can_plan : bool) (confidence : float) : dict :=
  [ ("can_plan", JBool can_plan); ("confidence", JFloat confidence);
    ("plan", JArr []); ("unknown_steps", JArr []) ].

(** A decoder that reads every text as the given plan. *)
Definition loads_as (plan : dict) (text : string) : option dict := Some plan.

End Samples.

(* ================================================================== *)
(** ** storage/database.py: writes and the remaining reads *)
(* ================================================================== *)

(** A connection: the tables together with the AUTOINCREMENT counters of
    [pages] and [task_paths]. *)
Record Connection := mkConnection {
  tables : Store;
  pages_seq : Z;
  task_paths_seq : Z
}.

Module SQLiteWrites.

(** [if page.id:], false when the id is [None] or zero. *)
Definition id_set (id : option Z) : bool :=
  match id with
  | Some z => negb (Z.eqb z 0)
  | None => false
  end.

Definition id_value (id : option Z) : Z :=
  match id with Some z => z | None => 0%Z end.

Definition max_page_id (rows : list Page.t) : Z :=
  fold_right (fun r m => Z.max (id_value (Page.id r)) m) 0%Z rows.

Definition max_task_path_id (rows : list TaskPath.t) : Z :=
  fold_right (fun r m => Z.max (id_value (TaskPath.id r)) m) 0%Z rows.

(** The effect of [UPDATE pages SET ... WHERE id=?] on one row: the seven
    listed columns are overwritten, [id] and [site_id] are kept. *)
Definition update_page_row (page row : Page.t) : Page.t :=
  if Z.eqb (id_value (Page.id row)) (id_value (Page.id page))
  then Page.mk (Page.id row) (Page.site_id row)
               (Page.url_pattern page) (Page.title_pattern page)
               (Page.page_type page) (Page.semantic_description page)
               (Page.key_features page) (Page.sample_url page)
               (Page.visit_count page)
  else row.

Definition with_pages (c : Connection) (rows : list Page.t) (seq : Z) : Connection :=
  mkConnection
    (mkStore (sites (tables c)) (sites_seq (tables c)) rows (task_paths (tables c)))
    seq (task_paths_seq c).

Definition with_task_paths (c : Connection) (rows : list TaskPath.t) (seq : Z)
  : Connection :=
  mkConnection
    (mkStore (sites (tables c)) (sites_seq (tables c)) (pages (tables c)) rows)
    (pages_seq c) seq.

Definition save_page (c : Connection) (page : Page.t) : Page.t * Connection :=
  if id_set (Page.id page) then
    (page,
     with_pages c (map (update_page_row page) (pages (tables c))) (pages_seq c))
  else
    let lastrowid := (Z.max (pages_seq c) (max_page_id (pages (tables c))) + 1)%Z in
    let page' :=
      Page.mk (Some lastrowid) (Page.site_id page)
              (Page.url_pattern page) (Page.title_pattern page)
              (Page.page_type page) (Page.semantic_description page)
              (Page.key_features page) (Page.sample_url page)
              (Page.visit_count page) in
    (page', with_pages c (pages (tables c) ++ [page']) lastrowid).

(** [get_pages_by_site] *)
Definition get_pages_by_site (c : Connection) (site_id : Z) : list Page.t :=
  select_pages (tables c) site_id.

(** The effect of [UPDATE task_paths SET ... WHERE id=?] on one row. *)
Definition update_task_path_row (task_path row : TaskPath.t) : TaskPath.t :=
  if Z.eqb (id_value (TaskPath.id row)) (id_value (TaskPath.id task_path))
  then TaskPath.mk (TaskPath.id row) (TaskPath.site_id row)
                   (TaskPath.task_description task_path)
                   (TaskPath.task_keywords task_path)
                   (TaskPath.action_sequence task_path)
                   (TaskPath.start_page_id task_path)
                   (TaskPath.end_page_id task_path)
                   (TaskPath.success_count task_path)
                   (TaskPath.fail_count task_path)
  else row.

Definition save_task_path (c : Connection) (task_path : TaskPath.t)
  : TaskPath.t * Connection :=
  if id_set (TaskPath.id task_path) then
    (task_path,
     with_task_paths c
       (map (update_task_path_row task_path) (task_paths (tables c)))
       (task_paths_seq c))
  else
    let lastrowid :=
      (Z.max (task_paths_seq c) (max_task_path_id (task_paths (tables c))) + 1)%Z in
    let task_path' :=
      TaskPath.mk (Some lastrowid) (TaskPath.site_id task_path)
                  (TaskPath.task_description task_path)
                  (TaskPath.task_keywords task_path)
                  (TaskPath.action_sequence task_path)
                  (TaskPath.start_page_id task_path)
                  (TaskPath.end_page_id task_path)
                  (TaskPath.success_count task_path)
                  (TaskPath.fail_count task_path) in
    (task_path', with_task_paths c (task_paths (tables c) ++ [task_path']) lastrowid).

(** [get_task_paths_by_site] *)
Definition get_task_paths_by_site (c : Connection) (site_id : Z) : list TaskPath.t :=
  select_task_paths (tables c) site_id.

(** [get_site_by_domain] *)
Definition get_site_by_domain (db : Store) (domain : string) : option Site.t :=
  match select_site db domain with
  | None => None
  | Some row =>
      Some (Site.mk (Some (SiteRow.id row)) (SiteRow.domain row)
                    (SiteRow.name row) (SiteRow.description row))
  end.

Section WithUrlparse.

Variable urlparse : string -> UrlLib.ParseResult.


End WithUrlparse.

End SQLiteWrites.

(** [" ".join(words)] *)
Fixpoint join_spaces (words : list string) : string :=
  match words with
  | [] => EmptyString
  | [w] => w
  | w :: rest => (w ++ " " ++ join_spaces rest)%string
  end.

Module TaskRecorder.

(** [WebAgent._record_task_from_history] and [_record_successful_task]:
    both build the same row, with the serialized history or plan as
    [action_sequence], and save it. *)
Definition _record_task (c : Connection) (site_id : Z)
  (instruction action_sequence : string) : Connection :=
  snd (SQLiteWrites.save_task_path c
         (TaskPath.mk None site_id instruction
                      (join_spaces (PyStr.split instruction))
                      action_sequence None None 1 0)).

End TaskRecorder.

(* ================================================================== *)
(** ** explorer/explorer.py: the drain loop *)
(* ================================================================== *)

Module Exploration.
Import SiteExplorer.

(** What the browser, the tagger and the model show after a successful
    click: the URL the page is on, whether [_check_for_modal] sees a
    dialog, the tag map of [tag_page] ([None] when it gives no screenshot
    or an empty map) and the elements [analyze_elements] reports. *)
Record ClickResult := mkClickResult {
  landed_url : string;
  has_modal : bool;
  tag_map : option (Z -> option string);
  elements_info : list ElemInfo
}.

(** The attributes of [SiteExplorer] the loop works on.  [next_page_id] and
    [next_element_id] are the ids the store gives to the next saved page
    and element; [clicked] lists the items handed to [_click_item], in
    order. *)
Record State := mkState {
  visited_urls : list string;
  visited_items : list ItemKey;
  pending_items : list Item;
  next_page_id : Z;
  next_element_id : Z;
  clicked : list Item
}.

Definition item_key (item : Item) : ItemKey :=
  (source_page_id item, name item).

(** The iterations of the [while] loop that pop an already visited item and
    [continue]: the first pending item that is not visited, and the items
    behind it. *)
Fixpoint next_unvisited (visited : list ItemKey) (pending : list Item)
  : option (Item * list Item) :=
  match pending with
  | [] => None
  | item :: rest =>
      if key_in (item_key item) visited then next_unvisited visited rest
      else Some (item, rest)
  end.

Section WithWorld.

Variable urlparse : string -> UrlLib.ParseResult.

(** [_click_item] followed by what the page shows; [None] when the click
    fails.  The second argument is [explored_count]. *)
Variable click : Item -> nat -> option ClickResult.

(** [_analyze_after_click]: the changes to the explorer's attributes.  The
    page, action and log rows it saves do not come back into the loop
    except through the id of the saved page. *)
Definition after_click (r : ClickResult) (st : State) : State :=
  let url_key := _normalize_url urlparse (landed_url r) in
  let is_new_page := negb (existsb (String.eqb url_key) (visited_urls st)) in
  let visited_urls' :=
    if is_new_page then visited_urls st ++ [url_key] else visited_urls st in
  let page_id := next_page_id st in
  if is_new_page || has_modal r then
    match tag_map r with
    | Some tag_to_xpath =>
        let (pending', eid') :=
          _analyze_after_click tag_to_xpath (visited_items st) page_id
            (landed_url r) (elements_info r) (next_element_id st)
            (pending_items st) in
        mkState visited_urls' (visited_items st) pending'
                (page_id + 1)%Z eid' (clicked st)
    | None =>
        mkState visited_urls' (visited_items st) (pending_items st)
                (page_id + 1)%Z (next_element_id st) (clicked st)
    end
  else
    mkState visited_urls' (visited_items st) (pending_items st)
            (page_id + 1)%Z (next_element_id st) (clicked st).

(** The [while self.pending_items and explored_count < max_items] loop;
    [budget] is [max_items - explored_count]. *)
Fixpoint drain (budget explored_count : nat) (st : State) : State :=
  match budget with
  | O => st
  | S budget' =>
      match next_unvisited (visited_items st) (pending_items st) with
      | None =>
          mkState (visited_urls st) (visited_items st) []
                  (next_page_id st) (next_element_id st) (clicked st)
      | Some (item, rest) =>
          let explored_count := S explored_count in
          let st1 :=
            mkState (visited_urls st) (visited_items st ++ [item_key item]) rest
                    (next_page_id st) (next_element_id st)
                    (clicked st ++ [item]) in
          let st2 :=
            match click item explored_count with
            | Some r => after_click r st1
            | None => st1
            end in
          drain budget' explored_count st2
      end
  end.

(** [_explore_all_items] with [max_items = max_pages * 3]. *)
Definition _explore_all_items (max_pages : Z) (st : State) : State :=
  drain (Z.to_nat (max_pages * 3)) 0 st.

End WithWorld.

End Exploration.

(* ================================================================== *)
(** ** agent.py: planned execution *)
(* ================================================================== *)

Module PlannedRun.

(** What a planned run meets in its [i]-th iteration (from 1): the answer
    of [self.llm_client.chat], the browser page and the tag map. *)
Record PlanSession := mkPlanSession {
  chat_reply : nat -> string;
  plan_page : nat -> ActionExecutor.PageOracle;
  plan_tags : nat -> Z -> option string
}.

(** How planned execution ends: by an exception, with one of the two
    messages of [_execute_with_plan], or with whatever the live loop
    returns after the switch. *)
Inductive PlanResult :=
| PlanRaises
| CompletedWithMemory (step_num : json)
| PlanFinished (steps : nat)
| SwitchedToLive (live : WebAgent.Result * list WebAgent.HistoryEntry).

(** [for x in v]: the elements Python iterates over, [None] when [v] is not
    iterable.  A string yields its characters, a dict its keys. *)
Definition iterate (v : json) : option (list json) :=
  match v with
  | JArr items => Some items
  | JStr s =>
      Some (map (fun c => JStr (String c EmptyString)) (list_ascii_of_string s))
  | JObj fields => Some (map (fun kv => JStr (fst kv)) fields)
  | _ => None
  end.

(** ["FAIL" in action.upper()] *)
Definition mentions_fail (action : string) : bool :=
  PyStr.contains "FAIL" (PyStr.upper action).

(** The [for step_info in steps] loop.  [total] is [len(steps)], [i] the
    number of iterations begun and [executed] the number of commands
    handed to the action executor. *)
Fixpoint plan_loop (ps : PlanSession) (live : WebAgent.Session) (total : nat)
  (steps : list json) (i executed : nat) : PlanResult * nat :=
  match steps with
  | [] => (PlanFinished total, executed)
  | JObj step_info :: rest =>
      let i := S i in
      let action := chat_reply ps i in
      if mentions_fail action
      then (SwitchedToLive (WebAgent._execute_without_memory live), executed)
      else
        let out := ActionExecutor.execute (plan_page ps i) (plan_tags ps i) action in
        if ActionExecutor.done out
        then (CompletedWithMemory (dict_get_default step_info "step" (JInt 0)),
              S executed)
        else plan_loop ps live total rest i (S executed)
  | _ :: _ => (PlanRaises, executed)
  end.

(** [_execute_with_plan]: the result and the number of executed commands. *)
Definition _execute_with_plan (ps : PlanSession) (live : WebAgent.Session)
  (plan : dict) : PlanResult * nat :=
  match iterate (dict_get_default plan "plan" (JArr [])) with
  | None => (PlanRaises, 0)
  | Some steps => plan_loop ps live (length steps) steps 0 0
  end.

(** [step['step']] and [step['action_detail']] in the loop of
    [execute_task] that prints the plan: both keys must be there. *)
Definition printable (step : json) : bool :=
  match step with
  | JObj d =>
      match dict_get d "step", dict_get d "action_detail" with
      | Some _, Some _ => true
      | _, _ => false
      end
  | _ => false
  end.

(** The planned branch of [execute_task]: it prints the steps and calls
    [_execute_with_plan]. *)
Definition announce_and_execute (ps : PlanSession) (live : WebAgent.Session)
  (plan : dict) : PlanResult * nat :=
  match iterate (dict_get_default plan "plan" (JArr [])) with
  | None => (PlanRaises, 0)
  | Some steps =>
      if forallb printable steps then _execute_with_plan ps live plan
      else (PlanRaises, 0)
  end.

End PlannedRun.

(* ================================================================== *)
(** ** Vocabulary of the further properties *)
(* ================================================================== *)

(** The collection rule for one element description. *)
Definition collectable (tag_to_xpath : Z -> option string)
  (visited_items : list SiteExplorer.ItemKey) (page_id : Z)
  (e : SiteExplorer.ElemInfo) : Prop :=
  exists tag xp,
    SiteExplorer.tag_id e = Some tag
    /\ tag_to_xpath tag = Some xp
    /\ xp <> EmptyString
    /\ (SiteExplorer.is_nav_menu e = true
        \/ SiteExplorer.is_crud_action e = true
        \/ (7 <= SiteExplorer.explore_priority e)%Z)
    /\ ~ In (page_id, SiteExplorer.semantic_name e) visited_items.

(** The element description has a tag id, so that an element row is saved
    for it. *)
Definition tagged (e : SiteExplorer.ElemInfo) : bool :=
  match SiteExplorer.tag_id e with Some _ => true | None => false end.

(** [item] was queued for the element description [e] of page [page_id],
    which passes the collection rule. *)
Definition queued_from (tag_to_xpath : Z -> option string)
  (visited_items : list SiteExplorer.ItemKey) (page_id : Z)
  (item : SiteExplorer.Item) (e : SiteExplorer.ElemInfo) : Prop :=
  collectable tag_to_xpath visited_items page_id e
  /\ SiteExplorer.name item = SiteExplorer.semantic_name e
  /\ SiteExplorer.source_page_id item = page_id
  /\ SiteExplorer.priority item = SiteExplorer.explore_priority e
  /\ SiteExplorer.item_type item = SiteExplorer.item_type_of e.

(** The items of [l] whose key equals [k], in their order. *)
Definition with_key (key : SiteExplorer.Item -> Z) (k : Z)
  (l : list SiteExplorer.Item) : list SiteExplorer.Item :=
  filter (fun x => Z.eqb (key x) k) l.

(** The sleeps among the effects, in milliseconds. *)
Definition sleeps (effects : list ActionExecutor.Effect) : list Z :=
  flat_map (fun e => match e with ActionExecutor.ESleep ms => [ms] | _ => [] end)
           effects.

(** The URLs navigated to among the effects. *)
Definition navigations (effects : list ActionExecutor.Effect) : list string :=
  flat_map (fun e => match e with ActionExecutor.EGoto url => [url] | _ => [] end)
           effects.

(** The locators touched among the effects. *)
Definition touched (effects : list ActionExecutor.Effect) : list string :=
  flat_map (fun e => match e with
                     | ActionExecutor.EClick x => [x]
                     | ActionExecutor.EClear x => [x]
                     | ActionExecutor.EFill x _ => [x]
                     | _ => []
                     end)
           effects.


(** The run was reported as completed. *)
Definition is_completed (r : WebAgent.Result) : bool :=
  match r with WebAgent.Completed _ => true | _ => false end.

(** The value is one Python compares with a float: a number or a
    boolean. *)
Definition is_number (v : json) : bool :=
  match v with JInt _ | JFloat _ | JBool _ => true | _ => false end.

(** The value is a JSON object. *)
Definition is_dict (v : json) : bool :=
  match v with JObj _ => true | _ => false end.

(** The keys of a list of items. *)
Definition keys_of (items : list SiteExplorer.Item) : list SiteExplorer.ItemKey :=
  map Exploration.item_key items.

Module MoreSamples.

Definition fresh_connection : Connection := mkConnection empty_store 0 0.

Definition login_page : Page.t :=
  Page.mk None 1 "http://shop.example/login" "Sign in" LOGIN
          "login form" "[]" "http://shop.example/login?next=/" 1.

Definition idle_explorer : Exploration.State :=
  Exploration.mkState [] [] [Samples.i_nav; Samples.i_create] 2 5 [].

Definition failing_click (item : SiteExplorer.Item) (n : nat)
  : option Exploration.ClickResult := None.

Definition plan_session (k : nat) : PlannedRun.PlanSession :=
  PlannedRun.mkPlanSession
    (fun i => if Nat.eqb i k then "FAIL" else "CLICK [3]")
    (fun _ => Samples.quiet_page) (fun _ => Samples.every_tag).

Definition step (n : Z) : json :=
  JObj [("step", JInt n); ("action_detail", JStr "open the menu")].

Definition three_step_plan : dict :=
  [ ("can_plan", JBool true); ("plan", JArr [step 1; step 2; step 3]) ].

End MoreSamples.

(* ================================================================== *)
(** * Properties *)
(* ================================================================== *)

(** ** Memory store: URL pattern matching *)

Section UrlMatching.

Variable urlparse : string -> UrlLib.ParseResult.

Local Abbreviation parts := (SQLiteDatabase.path_parts urlparse).
Local Abbreviation matches := (SQLiteDatabase._url_matches_pattern urlparse).

Lemma segment_ok_dec (u p : string) :
  (String.eqb p "*" || String.eqb p u || (PyStr.isdigit u && PyStr.isdigit p)) = true
  <-> segment_ok u p.
Proof.
  unfold segment_ok.
  rewrite !orb_true_iff, andb_true_iff, !String.eqb_eq.
  tauto.
Qed.

Lemma parts_match_cons (u p : string) (us ps : list string) :
  SQLiteDatabase.parts_match (u :: us) (p :: ps)
  = (String.eqb p "*" || String.eqb p u || (PyStr.isdigit u && PyStr.isdigit p))
    && SQLiteDatabase.parts_match us ps.
Proof.
  simpl.
  destruct (String.eqb p "*" || String.eqb p u); simpl; [reflexivity|].
  destruct (PyStr.isdigit u && PyStr.isdigit p); reflexivity.
Qed.

Lemma parts_match_Forall2 (us ps : list string) :
  Forall2 segment_ok us ps -> SQLiteDatabase.parts_match us ps = true.
Proof.
  induction 1 as [|u p us ps Hok _ IH]; [reflexivity|].
  rewrite parts_match_cons, IH, andb_true_r.
  now apply segment_ok_dec.
Qed.

Lemma parts_match_bad_pair (us ps : list string) (i : nat) (u p : string) :
  nth_error us i = Some u ->
  nth_error ps i = Some p ->
  ~ segment_ok u p ->
  SQLiteDatabase.parts_match us ps = false.
Proof.
  revert ps i.
  induction us as [|u0 us IH]; intros ps i Hu Hp Hbad.
  - destruct i; discriminate.
  - destruct ps as [|p0 ps]; [destruct i; discriminate|].
    rewrite parts_match_cons.
    destruct i as [|i]; simpl in Hu, Hp.
    + injection Hu as ->. injection Hp as ->.
      destruct (String.eqb p "*" || String.eqb p u
                || (PyStr.isdigit u && PyStr.isdigit p)) eqn:E; [|reflexivity].
      exfalso. now apply Hbad, segment_ok_dec.
    + rewrite (IH ps i Hu Hp Hbad). apply andb_false_r.
Qed.

(** The matcher decides the rule: on a non-empty pattern it answers true
    exactly when the two segment lists are related pairwise by the rule. *)
Lemma url_matches_pattern_spec (url pattern : string) :
  pattern <> EmptyString ->
  (matches url pattern = true <-> Forall2 segment_ok (parts url) (parts pattern)).
Proof.
  intros Hne. unfold SQLiteDatabase._url_matches_pattern.
  destruct pattern as [|c pattern]; [congruence|]. cbn [PyStr.truthy negb].
  set (us := SQLiteDatabase.path_parts urlparse url).
  set (ps := SQLiteDatabase.path_parts urlparse (String c pattern)).
  clearbody us ps.
  destruct (Nat.eqb (length us) (length ps)) eqn:Hlen; cbn [negb].
  - apply Nat.eqb_eq in Hlen. split; [|apply parts_match_Forall2].
    revert ps Hlen. induction us as [|u us IH]; intros [|p ps] Hlen Hm;
      try discriminate; [constructor|].
    rewrite parts_match_cons in Hm. apply andb_true_iff in Hm as [Hok Hm].
    constructor; [now apply segment_ok_dec|].
    apply IH; [now injection Hlen|exact Hm].
  - split; [discriminate|]. intros HF. apply Forall2_length in HF.
    apply Nat.eqb_neq in Hlen. contradiction.
Qed.

Lemma normalize_url_nonempty (raw : string) :
  SiteExplorer._normalize_url urlparse raw <> EmptyString.
Proof.
  unfold SiteExplorer._normalize_url.
  assert (H : forall a b : string, (a ++ "://" ++ b)%string <> EmptyString).
  { intros [|x a] b; discriminate. }
  destruct (PyStr.truthy _); apply H.
Qed.

(** C4.  For normalized URLs [u1] and [u2] whose path-segment lists are
    related pairwise by the rule (equal, wildcard pattern segment, or both
    numeric) the matcher returns true; and as soon as one pair of segments
    is not related by the rule it returns false. *)
Theorem C4_url_matches_pattern_rule (raw1 raw2 : string) :
  let u1 := SiteExplorer._normalize_url urlparse raw1 in
  let u2 := SiteExplorer._normalize_url urlparse raw2 in
  (length (parts u1) = length (parts u2) ->
   Forall2 segment_ok (parts u1) (parts u2) ->
   matches u1 u2 = true)
  /\ (forall (i : nat) (u p : string),
        nth_error (parts u1) i = Some u ->
        nth_error (parts u2) i = Some p ->
        ~ segment_ok u p ->
        matches u1 u2 = false).
Proof.
  intros u1 u2.
  assert (Hne : u2 <> EmptyString) by apply normalize_url_nonempty.
  split.
  - intros _ HF. now apply url_matches_pattern_spec.
  - intros i u p Hu Hp Hbad.
    destruct (matches u1 u2) eqn:E; [|reflexivity].
    apply url_matches_pattern_spec in E; [|exact Hne].
    exfalso.
    pose proof (parts_match_Forall2 _ _ E) as Hm.
    rewrite (parts_match_bad_pair _ _ i u p Hu Hp Hbad) in Hm. discriminate.
Qed.

End UrlMatching.

(** The rule at work with the library model of [urlparse]: a numeric id
    and a wildcard are accepted, a different literal segment is not. *)
Lemma C4_url_matches_pattern_rule_witness :
  SQLiteDatabase._url_matches_pattern UrlLib.urlparse
    "http://shop.example/order/7/edit" "http://shop.example/order/12/*" = true
  /\ SQLiteDatabase._url_matches_pattern UrlLib.urlparse
       "http://shop.example/order/7/edit" "http://shop.example/item/12/*" = false.
Proof.
  split.
  - apply (proj1 (C4_url_matches_pattern_rule UrlLib.urlparse
                    "http://shop.example/order/7/edit"
                    "http://shop.example/order/12/*")).
    + reflexivity.
    + change (Forall2 segment_ok ["order"; "7"; "edit"] ["order"; "12"; "*"]).
      constructor; [right; left; reflexivity|].
      constructor; [right; right; split; reflexivity|].
      constructor; [left; reflexivity|constructor].
  - apply (proj2 (C4_url_matches_pattern_rule UrlLib.urlparse
                    "http://shop.example/order/7/edit"
                    "http://shop.example/item/12/*") 0%nat "order" "item").
    + reflexivity.
    + reflexivity.
    + intros [H | [H | [H _]]]; discriminate.
Defined.

(** ** Memory store: similar pages *)

Section SimilarPage.

Variable urlparse : string -> UrlLib.ParseResult.

Lemma scan_similar_find (url title : string) (rows : list Page.t) :
  SQLiteDatabase.scan_similar urlparse url title rows
  = find (page_similar urlparse url title) rows.
Proof.
  induction rows as [|page rest IH]; [reflexivity|].
  simpl. unfold page_similar at 1.
  destruct (SQLiteDatabase._url_matches_pattern urlparse url (Page.url_pattern page));
    [reflexivity|].
  destruct (title_matches title page); [reflexivity|exact IH].
Qed.

(** A first match: [find] returns [x] exactly when [x] satisfies the test
    and nothing before it does. *)
Lemma find_first_match {A : Type} (f : A -> bool) (l : list A) :
  match find f l with
  | Some x =>
      exists before after,
        l = before ++ x :: after /\ f x = true
        /\ forall y, In y before -> f y = false
  | None => forall y, In y l -> f y = false
  end.
Proof.
  induction l as [|a l IH]; simpl.
  - intros y [].
  - destruct (f a) eqn:Ea.
    + exists [], l. repeat split; [exact Ea|intros y []].
    + destruct (find f l) as [x|].
      * destruct IH as (before & after & -> & Hx & Hb).
        exists (a :: before), after. repeat split; [exact Hx|].
        intros y [<-|Hy]; [exact Ea|now apply Hb].
      * intros y [<-|Hy]; [exact Ea|now apply IH].
Qed.

(** C3 (amended).  [find_similar_page] returns the first stored page of the
    site, in row order, that is similar to the query by its URL pattern or
    by its title; a page whose URL pattern matches is returned when no
    earlier row matches either way, and when no stored page matches on the
    URL the result is the first page that matches on the title. *)
Theorem C3_find_similar_page_first_similar
  (db : Store) (site_id : Z) (url title : string) :
  let rows := select_pages db site_id in
  let url_ok := fun page =>
    SQLiteDatabase._url_matches_pattern urlparse url (Page.url_pattern page) in
  match SQLiteDatabase.find_similar_page urlparse db site_id url title with
  | Some page =>
      exists before after,
        rows = before ++ page :: after
        /\ (url_ok page = true \/ title_matches title page = true)
        /\ (forall q, In q before ->
              url_ok q = false /\ title_matches title q = false)
        /\ ((forall q, In q rows -> url_ok q = false) ->
              title_matches title page = true)
  | None =>
      forall q, In q rows -> url_ok q = false /\ title_matches title q = false
  end.
Proof.
  intros rows url_ok. unfold SQLiteDatabase.find_similar_page.
  fold rows. rewrite scan_similar_find.
  pose proof (find_first_match (page_similar urlparse url title) rows) as H.
  destruct (find (page_similar urlparse url title) rows) as [page|].
  - destruct H as (before & after & Hrows & Hp & Hb).
    exists before, after. unfold page_similar in Hp.
    apply orb_true_iff in Hp. repeat split.
    + exact Hrows.
    + exact Hp.
    + apply Hb in H. unfold page_similar in H.
      now apply orb_false_iff in H.
    + apply Hb in H. unfold page_similar in H.
      now apply orb_false_iff in H.
    + intros Hno. destruct Hp as [Hp|Hp]; [|exact Hp].
      assert (Hin : In page rows)
        by (rewrite Hrows; apply in_or_app; right; now left).
      apply Hno in Hin. subst url_ok. simpl in Hin. congruence.
  - intros q Hq. apply H in Hq. unfold page_similar in Hq.
    now apply orb_false_iff in Hq.
Qed.

End SimilarPage.

(** C3, as stated, fails: the home page only matches on the title, the
    order page behind it matches on the URL, and the home page is
    returned. *)
Lemma C3_title_match_returned_before_url_match :
  SQLiteDatabase.find_similar_page UrlLib.urlparse Samples.two_pages 1
    "http://shop.example/order/7" "home" = Some Samples.home_page
  /\ In Samples.order_page (select_pages Samples.two_pages 1)
  /\ SQLiteDatabase._url_matches_pattern UrlLib.urlparse
       "http://shop.example/order/7" (Page.url_pattern Samples.order_page) = true
  /\ SQLiteDatabase._url_matches_pattern UrlLib.urlparse
       "http://shop.example/order/7" (Page.url_pattern Samples.home_page) = false.
Proof.
  repeat split; try reflexivity.
  right; left; reflexivity.
Qed.

(** C2.  The two backends disagree on a stored page that matches the query
    on its URL only: the embedded backend returns it, the client/server
    backend finds nothing. *)
Theorem C2_backends_disagree_on_url_match :
  SQLiteDatabase.find_similar_page UrlLib.urlparse Samples.two_pages 1
    "http://shop.example/order/7" "Checkout" = Some Samples.order_page
  /\ MySQLDatabase.find_similar_page Samples.two_pages 1
       "http://shop.example/order/7" "Checkout" = None.
Proof.
  split; reflexivity.
Qed.

(** ** Memory store: task-path retrieval *)

Section FindTaskPath.

Variable keywords : list string.

Local Abbreviation score := (SQLiteDatabase.keyword_score keywords).

(** What the scoring loop keeps: either the incoming best survives and no
    row beats it, or the result is the first row that reaches the highest
    score of all rows, which is above the incoming score. *)
Lemma best_loop_spec (rows : list TaskPath.t) :
  forall (best_match : option TaskPath.t) (best_score : nat),
    let r := SQLiteDatabase.best_loop keywords rows best_match best_score in
    (r = (best_match, best_score)
     /\ forall q, In q rows -> score q <= best_score)
    \/ (exists before p after,
          rows = before ++ p :: after
          /\ r = (Some p, score p)
          /\ best_score < score p
          /\ (forall q, In q before -> score q < score p)
          /\ (forall q, In q after -> score q <= score p)).
Proof.
  induction rows as [|row rest IH]; intros best_match best_score; cbn zeta.
  - left. split; [reflexivity|intros q []].
  - cbn [SQLiteDatabase.best_loop].
    destruct (Nat.ltb best_score (score row)) eqn:Hlt.
    + apply Nat.ltb_lt in Hlt. right.
      destruct (IH (Some row) (score row)) as [[Hr Hle] | Hex].
      * exists [], row, rest. repeat split; auto. intros q [].
      * destruct Hex as (before & p & after & -> & Hr & Hgt & Hb & Ha).
        exists (row :: before), p, after. repeat split; auto; [lia|].
        intros q [<-|Hq]; [exact Hgt|now apply Hb].
    + apply Nat.ltb_ge in Hlt.
      destruct (IH best_match best_score) as [[Hr Hle] | Hex].
      * left. split; [exact Hr|]. intros q [<-|Hq]; [exact Hlt|now apply Hle].
      * right. destruct Hex as (before & p & after & -> & Hr & Hgt & Hb & Ha).
        exists (row :: before), p, after. repeat split; auto.
        intros q [<-|Hq]; [lia|now apply Hb].
Qed.

End FindTaskPath.

Lemma all_chars_app (p : ascii -> bool) (a b : string) :
  PyStr.all_chars p (a ++ b) = PyStr.all_chars p a && PyStr.all_chars p b.
Proof.
  induction a as [|c a IH]; simpl; [reflexivity|].
  now rewrite IH, andb_assoc.
Qed.

Lemma split_ws_from_tokens (s : string) :
  forall cur,
    PyStr.all_chars (fun c => negb (PyStr.is_space c)) cur = true ->
    Forall is_token (PyStr.split_ws_from cur s).
Proof.
  induction s as [|c s IH]; intros cur Hcur; simpl.
  - destruct cur; simpl; constructor; [|constructor].
    split; [discriminate|exact Hcur].
  - destruct (PyStr.is_space c) eqn:Hc.
    + destruct cur; simpl.
      * now apply IH.
      * constructor; [split; [discriminate|exact Hcur]|now apply IH].
    + apply IH. rewrite all_chars_app, Hcur. simpl. now rewrite Hc.
Qed.

(** C5.  [find_task_path] lower-cases the description and splits it into
    whitespace-free tokens, scores each stored path of the site by the
    number of tokens contained in its lower-cased keywords, and returns the
    first path that reaches the highest score when that score is positive
    (every earlier path scores strictly less, no later path scores more),
    and nothing when every path scores zero. *)
Theorem C5_find_task_path_best_first
  (db : Store) (site_id : Z) (task_description : string) :
  let keywords := PyStr.split (PyStr.lower task_description) in
  let rows := select_task_paths db site_id in
  let score := fun task_path =>
    length (filter (fun kw =>
                      PyStr.contains kw (PyStr.lower (TaskPath.task_keywords task_path)))
                   keywords) in
  Forall is_token keywords
  /\ match SQLiteDatabase.find_task_path db site_id task_description with
     | Some p =>
         exists before after,
           rows = before ++ p :: after
           /\ 0 < score p
           /\ (forall q, In q before -> score q < score p)
           /\ (forall q, In q after -> score q <= score p)
     | None => forall q, In q rows -> score q = 0
     end.
Proof.
  intros keywords rows score. split.
  - apply split_ws_from_tokens. reflexivity.
  - unfold SQLiteDatabase.find_task_path. fold keywords rows.
    destruct (best_loop_spec keywords rows None 0) as [[Hr Hle] | Hex].
    + rewrite Hr. simpl. intros q Hq. apply Hle in Hq.
      unfold SQLiteDatabase.keyword_score in Hq. fold (score q) in Hq. lia.
    + destruct Hex as (before & p & after & Hrows & Hr & Hpos & Hb & Ha).
      rewrite Hr. unfold SQLiteDatabase.keyword_score in *.
      fold (score p) in *.
      destruct (Nat.ltb 0 (score p)) eqn:E; [|apply Nat.ltb_ge in E; lia].
      exists before, after. repeat split; auto.
Qed.

(** Worked examples: the best overlap wins, the first of two equal scores
    wins, no overlap and the empty description find nothing. *)
Example find_task_path_examples :
  option_map TaskPath.id
    (SQLiteDatabase.find_task_path Samples.three_paths 1 "now SEARCH product")
  = Some (Some 2%Z)
  /\ option_map TaskPath.id
       (SQLiteDatabase.find_task_path Samples.three_paths 1 "Product search")
     = Some (Some 1%Z)
  /\ SQLiteDatabase.find_task_path Samples.three_paths 1 "logout" = None
  /\ SQLiteDatabase.find_task_path Samples.three_paths 1 EmptyString = None.
Proof.
  repeat split.
Qed.

(** ** Memory store: sites *)

Lemma find_app_new {A : Type} (f : A -> bool) (l : list A) (x : A) :
  find f l = None -> f x = true -> find f (l ++ [x]) = Some x.
Proof.
  induction l as [|a l IH]; simpl; intros Hl Hx.
  - now rewrite Hx.
  - destruct (f a); [discriminate|now apply IH].
Qed.

Lemma find_none_count {A : Type} (f : A -> bool) (l : list A) :
  find f l = None -> length (filter f l) = 0.
Proof.
  induction l as [|a l IH]; simpl; [reflexivity|].
  destruct (f a); [discriminate|exact IH].
Qed.

Lemma count_domain_app (domain : string) (l1 l2 : list SiteRow.t) :
  count_domain domain (l1 ++ l2) = count_domain domain l1 + count_domain domain l2.
Proof.
  unfold count_domain. now rewrite filter_app, length_app.
Qed.

Lemma count_domain_unique (domain : string) (rows : list SiteRow.t) :
  NoDup (map SiteRow.domain rows) -> count_domain domain rows <= 1.
Proof.
  induction rows as [|r rows IH]; simpl; intros Hnd; [unfold count_domain; simpl; lia|].
  inversion Hnd as [|? ? Hnotin Hnd']; subst.
  unfold count_domain in *. simpl.
  destruct (String.eqb (SiteRow.domain r) domain) eqn:E.
  - apply String.eqb_eq in E. simpl.
    assert (length (filter (fun r0 => String.eqb (SiteRow.domain r0) domain) rows) = 0).
    { destruct (filter _ rows) as [|x xs] eqn:F; [reflexivity|].
      exfalso. apply Hnotin.
      assert (Hx : In x (filter (fun r0 => String.eqb (SiteRow.domain r0) domain) rows))
        by (rewrite F; now left).
      apply filter_In in Hx as [Hin Hd]. apply String.eqb_eq in Hd.
      rewrite E, <- Hd. now apply in_map. }
    lia.
  - now apply IH.
Qed.

Lemma find_some_count {A : Type} (f : A -> bool) (l : list A) (x : A) :
  find f l = Some x -> 1 <= length (filter f l).
Proof.
  induction l as [|a l IH]; simpl; [discriminate|].
  destruct (f a); simpl; [lia|exact IH].
Qed.

(** One call: the returned site carries the id of the row that the next
    lookup of the domain finds, the store then holds exactly one row of the
    domain, and the constraint on domains is kept. *)
Lemma get_or_create_site_spec (db : Store) (domain name description : string) :
  unique_domains db ->
  let r := SQLiteDatabase.get_or_create_site db domain name description in
  (exists row, select_site (snd r) domain = Some row
               /\ Site.id (fst r) = Some (SiteRow.id row))
  /\ count_domain domain (sites (snd r)) = 1
  /\ unique_domains (snd r)
  /\ (forall row, select_site db domain = Some row -> snd r = db).
Proof.
  intros Hu. unfold SQLiteDatabase.get_or_create_site.
  destruct (select_site db domain) as [row|] eqn:Hsel; cbn zeta; simpl.
  - repeat split; auto.
    + exists row. now split.
    + pose proof (count_domain_unique domain (sites db) Hu).
      pose proof (find_some_count _ _ _ Hsel). unfold count_domain in *. lia.
  - set (name' := if PyStr.truthy name then name else domain).
    set (new := SiteRow.mk (SQLiteDatabase.next_site_id db) domain name' description).
    assert (Hnew : String.eqb (SiteRow.domain new) domain = true)
      by apply String.eqb_refl.
    repeat split.
    + exists new. split; [|reflexivity].
      unfold select_site. simpl. now apply find_app_new.
    + rewrite count_domain_app. unfold count_domain at 1.
      rewrite (find_none_count _ _ Hsel). unfold count_domain. simpl.
      now rewrite String.eqb_refl.
    + unfold unique_domains in *. simpl. rewrite map_app. simpl.
      apply NoDup_app_remove_l with (l := []). simpl.
      apply Permutation_NoDup with (l := domain :: map SiteRow.domain (sites db)).
      * apply Permutation_cons_append.
      * constructor; [|exact Hu]. intros Hin.
        apply in_map_iff in Hin as (x & Hx & Hinx).
        apply (find_none _ _ Hsel) in Hinx. simpl in Hinx.
        rewrite Hx, String.eqb_refl in Hinx. discriminate.
    + discriminate.
Qed.

Lemma after_calls_succ (n : nat) (db : Store) (domain name description : string) :
  unique_domains db ->
  unique_domains (after_calls n db domain name description)
  /\ (0 < n -> count_domain domain (sites (after_calls n db domain name description)) = 1).
Proof.
  revert db. induction n as [|n IH]; intros db Hu; simpl.
  - split; [exact Hu|lia].
  - destruct (get_or_create_site_spec db domain name description Hu)
      as (_ & Hc & Hu' & _).
    destruct (IH _ Hu') as [Hu'' Hc'']. split; [exact Hu''|]. intros _.
    destruct n as [|n]; [exact Hc|apply Hc''; lia].
Qed.

(** C6.  On a store that satisfies the uniqueness constraint of
    [sites.domain], two successive calls of [get_or_create_site] with the
    same domain return sites with the same id, the second call leaves the
    store as the first one left it, and after any positive number of calls
    the store holds exactly one row with that domain. *)
Theorem C6_get_or_create_site_idempotent
  (db : Store) (domain name1 description1 name2 description2 : string) :
  unique_domains db ->
  let first := SQLiteDatabase.get_or_create_site db domain name1 description1 in
  let second :=
    SQLiteDatabase.get_or_create_site (snd first) domain name2 description2 in
  Site.id (fst first) = Site.id (fst second)
  /\ (exists id, Site.id (fst first) = Some id)
  /\ snd second = snd first
  /\ count_domain domain (sites (snd second)) = 1
  /\ forall n, count_domain domain
                 (sites (after_calls (S n) db domain name1 description1)) = 1.
Proof.
  intros Hu first second.
  destruct (get_or_create_site_spec db domain name1 description1 Hu)
    as ((row & Hsel & Hid) & Hc & Hu' & _).
  fold first in Hsel, Hid, Hc, Hu'.
  destruct (get_or_create_site_spec (snd first) domain name2 description2 Hu')
    as ((row2 & Hsel2 & Hid2) & Hc2 & _ & Hsame).
  fold second in Hsel2, Hid2, Hc2, Hsame.
  pose proof (Hsame row Hsel) as Hdb.
  rewrite Hdb in Hsel2. rewrite Hsel in Hsel2. injection Hsel2 as <-.
  repeat split.
  - now rewrite Hid, Hid2.
  - now exists (SiteRow.id row).
  - exact Hdb.
  - exact Hc2.
  - intros n. apply (after_calls_succ (S n) db domain name1 description1 Hu). lia.
Qed.

(** Two calls on the empty store. *)
Lemma C6_get_or_create_site_idempotent_witness :
  let first := SQLiteDatabase.get_or_create_site empty_store "shop.example"
                 EmptyString EmptyString in
  let second := SQLiteDatabase.get_or_create_site (snd first) "shop.example"
                  "Shop" "again" in
  Site.id (fst first) = Site.id (fst second)
  /\ (exists id, Site.id (fst first) = Some id)
  /\ snd second = snd first
  /\ count_domain "shop.example" (sites (snd second)) = 1
  /\ forall n, count_domain "shop.example"
                 (sites (after_calls (S n) empty_store "shop.example"
                           EmptyString EmptyString)) = 1.
Proof.
  apply (C6_get_or_create_site_idempotent empty_store "shop.example"
           EmptyString EmptyString "Shop" "again").
  constructor.
Defined.

(** ** Exploration engine: ordering of the pending items *)

Section SortDesc.

Variable key : SiteExplorer.Item -> Z.

Lemma insert_desc_perm (x : SiteExplorer.Item) (l : list SiteExplorer.Item) :
  Permutation (x :: l) (SiteExplorer.insert_desc key x l).
Proof.
  induction l as [|y l IH]; simpl; [reflexivity|].
  destruct (Z.ltb (key x) (key y)); [|reflexivity].
  rewrite perm_swap. now apply perm_skip.
Qed.

(** The sort keeps the items it is given. *)
Lemma sort_desc_perm (l : list SiteExplorer.Item) :
  Permutation l (SiteExplorer.sort_desc key l).
Proof.
  induction l as [|x l IH]; simpl; [reflexivity|].
  rewrite <- insert_desc_perm. now apply perm_skip.
Qed.

Lemma insert_desc_sorted (x : SiteExplorer.Item) (l : list SiteExplorer.Item) :
  Sorted (key_ge key) l -> Sorted (key_ge key) (SiteExplorer.insert_desc key x l).
Proof.
  induction l as [|y l IH]; simpl; intros Hs.
  - repeat constructor.
  - destruct (Z.ltb (key x) (key y)) eqn:E.
    + apply Z.ltb_lt in E. inversion Hs as [|? ? Hs' Hhd]; subst.
      constructor; [now apply IH|].
      destruct l as [|z l]; simpl.
      * constructor. unfold key_ge. lia.
      * destruct (Z.ltb (key x) (key z)).
        -- constructor. now inversion Hhd.
        -- constructor. unfold key_ge. lia.
    + apply Z.ltb_ge in E. constructor; [exact Hs|].
      constructor. exact E.
Qed.

(** The sort leaves the keys in decreasing order. *)
Lemma sort_desc_sorted (l : list SiteExplorer.Item) :
  Sorted (key_ge key) (SiteExplorer.sort_desc key l).
Proof.
  induction l as [|x l IH]; simpl; [constructor|].
  now apply insert_desc_sorted.
Qed.

End SortDesc.

(** After the first collection the pending items are the collected ones,
    reordered by decreasing rank key. *)
Lemma analyze_and_collect_items_sorted
  (tag_to_xpath : Z -> option string) (visited_items : list SiteExplorer.ItemKey)
  (page_id : Z) (current_url : string)
  (elements_info : list SiteExplorer.ElemInfo) (next_eid : Z)
  (pending_items : list SiteExplorer.Item) :
  let collected :=
    fst (SiteExplorer.collect_loop tag_to_xpath visited_items page_id current_url
           elements_info next_eid pending_items) in
  let sorted :=
    fst (SiteExplorer._analyze_and_collect_items tag_to_xpath visited_items
           page_id current_url elements_info next_eid pending_items) in
  Permutation collected sorted
  /\ Sorted (key_ge SiteExplorer.rank_key) sorted.
Proof.
  cbv zeta. unfold SiteExplorer._analyze_and_collect_items.
  destruct (SiteExplorer.collect_loop _ _ _ _ _ _ _) as [pending' eid'].
  cbn [fst]. split; [apply sort_desc_perm|apply sort_desc_sorted].
Qed.

(** C1.  On the four items of the specification's example the engine does
    not produce the order nav, crud/create, crud/delete, action.  The sort
    that follows the first collection puts the action item of priority 8
    before the delete item, whose key is 7, whatever the insertion order;
    the sort that follows a click orders by raw priority alone. *)
Theorem C1_pending_order_on_spec_example :
  let elements_info :=
    [Samples.e_action; Samples.e_nav; Samples.e_delete; Samples.e_create] in
  let items :=
    [Samples.i_action; Samples.i_nav; Samples.i_delete; Samples.i_create] in
  fst (SiteExplorer._analyze_and_collect_items Samples.every_tag [] 1
         "http://shop.example/home" elements_info 1 [])
  = [Samples.i_nav; Samples.i_create; Samples.i_action; Samples.i_delete]
  /\ Forall (fun order =>
               SiteExplorer.sort_desc SiteExplorer.rank_key order
               = [Samples.i_nav; Samples.i_create; Samples.i_action; Samples.i_delete])
            (all_orders items)
  /\ fst (SiteExplorer._analyze_after_click Samples.every_tag [] 1
            "http://shop.example/home" elements_info 1 [])
     = [Samples.i_delete; Samples.i_action; Samples.i_create; Samples.i_nav].
Proof.
  cbv zeta. split; [reflexivity|]. split; [|reflexivity].
  cbn [all_orders insert_everywhere flat_map map app].
  repeat (constructor; [reflexivity|]). constructor.
Qed.

(** ** Model replies: extraction of the JSON text *)

Lemma string_app_assoc (a b c : string) :
  ((a ++ b) ++ c)%string = (a ++ (b ++ c))%string.
Proof.
  induction a as [|x a IH]; simpl; [reflexivity|now rewrite IH].
Qed.

Lemma from_first_app (c : ascii) (pre t : string) :
  PyStr.any_char (Ascii.eqb c) pre = false ->
  JsonSearch.from_first c (pre ++ String c t) = Some (String c t).
Proof.
  induction pre as [|a pre IH]; simpl.
  - intros _. now rewrite Ascii.eqb_refl.
  - intros H. apply orb_false_iff in H as [Ha Hpre].
    rewrite Ascii.eqb_sym, Ha. now apply IH.
Qed.

Lemma from_first_inv (c : ascii) (s t : string) :
  JsonSearch.from_first c s = Some t ->
  exists pre t',
    s = (pre ++ t)%string /\ t = String c t'
    /\ PyStr.any_char (Ascii.eqb c) pre = false.
Proof.
  induction s as [|a s IH]; simpl; [discriminate|].
  destruct (Ascii.eqb a c) eqn:E.
  - intros [= <-]. apply Ascii.eqb_eq in E as ->.
    now exists EmptyString, s.
  - intros H. destruct (IH H) as (pre & t' & -> & -> & Hpre).
    exists (String a pre), t'. repeat split. simpl.
    now rewrite Ascii.eqb_sym, E.
Qed.

Lemma through_last_none (c : ascii) (s : string) :
  JsonSearch.through_last c s = None <-> PyStr.any_char (Ascii.eqb c) s = false.
Proof.
  induction s as [|a s IH]; simpl; [tauto|].
  rewrite (Ascii.eqb_sym c a).
  destruct (JsonSearch.through_last c s).
  - split; [discriminate|]. intros H. apply orb_false_iff in H as [_ H].
    apply IH in H. discriminate.
  - destruct (Ascii.eqb a c); simpl; [split; discriminate|].
    split; intros _; [now apply IH|reflexivity].
Qed.

Lemma through_last_app (c : ascii) (mid post : string) :
  PyStr.any_char (Ascii.eqb c) post = false ->
  JsonSearch.through_last c (mid ++ String c post)
  = Some (mid ++ String c EmptyString)%string.
Proof.
  intros Hpost. induction mid as [|a mid IH]; simpl.
  - apply through_last_none in Hpost. now rewrite Hpost, Ascii.eqb_refl.
  - now rewrite IH.
Qed.

Lemma through_last_inv (c : ascii) (s t : string) :
  JsonSearch.through_last c s = Some t ->
  exists mid post,
    s = (t ++ post)%string /\ t = (mid ++ String c EmptyString)%string
    /\ PyStr.any_char (Ascii.eqb c) post = false.
Proof.
  revert t. induction s as [|a s IH]; simpl; intros t; [discriminate|].
  destruct (JsonSearch.through_last c s) as [r|] eqn:Hr.
  - intros [= <-]. destruct (IH r eq_refl) as (mid & post & -> & -> & Hpost).
    now exists (String a mid), post.
  - destruct (Ascii.eqb a c) eqn:E; [|discriminate].
    intros [= <-]. apply Ascii.eqb_eq in E as ->.
    exists EmptyString, s. repeat split. now apply through_last_none.
Qed.

(** The search returns exactly the greedy span of the response. *)
Lemma search_greedy_span (response text : string) :
  JsonSearch.search response = Some text <-> greedy_span response text.
Proof.
  unfold JsonSearch.search, greedy_span. split.
  - destruct (JsonSearch.from_first "{" response) as [[|b rest]|] eqn:Hf;
      try discriminate.
    destruct (from_first_inv _ _ _ Hf) as (pre & t' & -> & [= -> ->] & Hpre).
    destruct (JsonSearch.through_last "}" t') as [r|] eqn:Hl; [|discriminate].
    intros [= <-].
    destruct (through_last_inv _ _ _ Hl) as (mid & post & -> & -> & Hpost).
    exists pre, mid, post. repeat split; assumption.
  - intros (pre & mid & post & -> & -> & Hpre & Hpost).
    change ((String "{" (mid ++ "}") ++ post)%string)
      with (String "{" ((mid ++ "}") ++ post))%string.
    rewrite (from_first_app _ _ _ Hpre), string_app_assoc.
    change (("}" ++ post)%string) with (String "}" post).
    now rewrite (through_last_app _ _ _ Hpost).
Qed.

Section ModelReplies.

Variable json_loads : string -> option dict.

(** The shared body returns the decoded greedy span when there is one and
    it decodes, and the default record in every other case. *)
Lemma parse_or_default_spec (default : dict) (outcome : LLMOutcome) :
  (exists response text,
      outcome = LLMReturns (Some response)
      /\ greedy_span response text
      /\ json_loads text = Some (parse_or_default json_loads default outcome))
  \/ (parse_or_default json_loads default outcome = default
      /\ forall response text,
           outcome = LLMReturns (Some response) ->
           greedy_span response text -> json_loads text = None).
Proof.
  destruct outcome as [|[response|]]; simpl.
  - right. split; [reflexivity|discriminate].
  - destruct (PyStr.truthy response) eqn:Ht.
    + destruct (JsonSearch.search response) as [text|] eqn:Hs.
      * destruct (json_loads text) as [v|] eqn:Hj.
        -- left. exists response, text. repeat split; [|exact Hj].
           now apply search_greedy_span.
        -- right. split; [reflexivity|]. intros r t [= <-] Hg.
           apply search_greedy_span in Hg. congruence.
      * right. split; [reflexivity|]. intros r t [= <-] Hg.
        apply search_greedy_span in Hg. congruence.
    + right. split; [reflexivity|]. intros r t [= <-] Hg.
      destruct response; [|discriminate].
      destruct Hg as (pre & mid & post & Hr & -> & _).
      destruct pre; discriminate.
  - right. split; [reflexivity|discriminate].
Qed.

(** C8 (amended).  For every outcome of the model call, page analysis and
    task planning take the text from the first opening brace to the last
    closing brace of the reply and decode it; when the call raises, returns
    nothing, returns a reply without such a text, or the text does not
    decode, [analyze_page] returns the default record (page type unknown,
    empty feature and element lists) and [plan_task] returns the
    cannot-plan result (can_plan false, confidence 0.0); both always
    return. *)
Theorem C8_reply_decoded_or_default (outcome : LLMOutcome) :
  let page_info := PageAnalyzer.analyze_page json_loads outcome in
  let plan := MemoryBasedPlanner.plan_task json_loads outcome in
  ((exists response text,
       outcome = LLMReturns (Some response)
       /\ greedy_span response text
       /\ json_loads text = Some page_info
       /\ json_loads text = Some plan)
   \/ (page_info = PageAnalyzer.default_page_info
       /\ plan = MemoryBasedPlanner.cannot_plan
       /\ forall response text,
            outcome = LLMReturns (Some response) ->
            greedy_span response text -> json_loads text = None))
  /\ dict_get PageAnalyzer.default_page_info "page_type" = Some (JStr "unknown")
  /\ dict_get PageAnalyzer.default_page_info "key_features" = Some (JArr [])
  /\ dict_get PageAnalyzer.default_page_info "important_elements" = Some (JArr [])
  /\ dict_get MemoryBasedPlanner.cannot_plan "can_plan" = Some (JBool false)
  /\ dict_get MemoryBasedPlanner.cannot_plan "confidence" = Some (JFloat 0%float).
Proof.
  intros page_info plan. split; [|repeat split].
  subst page_info plan.
  unfold PageAnalyzer.analyze_page, MemoryBasedPlanner.plan_task.
  destruct (parse_or_default_spec PageAnalyzer.default_page_info outcome)
    as [(r & t & Ho & Hg & Hj) | (Hd & Hn)].
  - left. exists r, t. repeat split; try assumption.
    destruct (parse_or_default_spec MemoryBasedPlanner.cannot_plan outcome)
      as [(r' & t' & Ho' & Hg' & Hj') | (_ & Hn')].
    + rewrite Ho in Ho'. injection Ho' as <-.
      apply search_greedy_span in Hg, Hg'. congruence.
    + rewrite (Hn' r t Ho Hg) in Hj. discriminate.
  - right. repeat split; try assumption.
    destruct (parse_or_default_spec MemoryBasedPlanner.cannot_plan outcome)
      as [(r' & t' & Ho' & Hg' & Hj') | (Hd' & _)]; [|exact Hd'].
    rewrite (Hn r' t' Ho' Hg') in Hj'. discriminate.
Qed.

End ModelReplies.

(** C8, as stated, fails: on a reply that holds two objects the extracted
    text runs from the first opening brace to the last closing brace and is
    not the first balanced block. *)
Lemma C8_extraction_is_not_first_balanced_block :
  JsonSearch.search "Either {} or {}" = Some "{} or {}"
  /\ first_balanced_block "Either {} or {}" = Some "{}"
  /\ JsonSearch.search "Either {} or {}" <> first_balanced_block "Either {} or {}".
Proof.
  repeat split. discriminate.
Qed.

(** ** Action executor: the DONE command *)

Lemma is_space_lower_char (c : ascii) :
  PyStr.is_space (PyStr.lower_char c) = PyStr.is_space c.
Proof.
  destruct c as [[] [] [] [] [] [] [] []]; reflexivity.
Qed.

Lemma lower_lstrip (s : string) :
  PyStr.lower (PyStr.lstrip PyStr.is_space s)
  = PyStr.lstrip PyStr.is_space (PyStr.lower s).
Proof.
  induction s as [|c s IH]; simpl; [reflexivity|].
  rewrite is_space_lower_char. now destruct (PyStr.is_space c).
Qed.

Lemma lower_rstrip (s : string) :
  PyStr.lower (PyStr.rstrip PyStr.is_space s)
  = PyStr.rstrip PyStr.is_space (PyStr.lower s).
Proof.
  induction s as [|c s IH]; simpl; [reflexivity|].
  rewrite <- IH, is_space_lower_char.
  destruct (PyStr.rstrip PyStr.is_space s); simpl; [|reflexivity].
  now destruct (PyStr.is_space c).
Qed.

Lemma lower_strip (s : string) :
  PyStr.lower (PyStr.strip PyStr.is_space s)
  = PyStr.strip PyStr.is_space (PyStr.lower s).
Proof.
  unfold PyStr.strip. now rewrite lower_rstrip, lower_lstrip.
Qed.

Section StripKeepsWords.

Variable p : ascii -> bool.

Lemma startswith_stripped_char (a : ascii) (word : string) (c : ascii) (s : string) :
  unstrippable p (String a word) -> p c = true ->
  PyStr.startswith (String a word) (String c s) = false.
Proof.
  unfold unstrippable. simpl. intros H Hc. apply andb_true_iff in H as [Ha _].
  destruct (Ascii.eqb a c) eqn:E; [|reflexivity].
  apply Ascii.eqb_eq in E. subst. rewrite Hc in Ha. discriminate.
Qed.

Lemma contains_lstrip (a : ascii) (word s : string) :
  unstrippable p (String a word) ->
  PyStr.contains (String a word) (PyStr.lstrip p s)
  = PyStr.contains (String a word) s.
Proof.
  intros Hw. induction s as [|c s IH]; [reflexivity|].
  cbn [PyStr.lstrip]. destruct (p c) eqn:Hc; [|reflexivity].
  rewrite IH. cbn [PyStr.contains].
  now rewrite (startswith_stripped_char a word c s Hw Hc).
Qed.

Lemma rstrip_cases (c : ascii) (s : string) :
  PyStr.rstrip p (String c s) = String c (PyStr.rstrip p s)
  \/ (PyStr.rstrip p (String c s) = EmptyString
      /\ PyStr.rstrip p s = EmptyString /\ p c = true).
Proof.
  simpl. destruct (PyStr.rstrip p s); [|now left].
  destruct (p c); [right|left]; auto.
Qed.

Lemma startswith_rstrip (word s : string) :
  unstrippable p word ->
  PyStr.startswith word (PyStr.rstrip p s) = PyStr.startswith word s.
Proof.
  revert word. induction s as [|c s IH]; intros word Hw; [reflexivity|].
  destruct word as [|a word]; [now destruct (PyStr.rstrip p (String c s))|].
  destruct (rstrip_cases c s) as [-> | (-> & Hs & Hc)].
  - simpl. rewrite IH; [reflexivity|].
    unfold unstrippable in *. simpl in Hw. now apply andb_true_iff in Hw.
  - now rewrite (startswith_stripped_char a word c s Hw Hc).
Qed.

Lemma contains_rstrip (a : ascii) (word s : string) :
  unstrippable p (String a word) ->
  PyStr.contains (String a word) (PyStr.rstrip p s)
  = PyStr.contains (String a word) s.
Proof.
  intros Hw. induction s as [|c s IH]; [reflexivity|].
  pose proof (startswith_rstrip (String a word) (String c s) Hw) as Hst.
  destruct (rstrip_cases c s) as [E | (E & Hs & Hc)]; rewrite E in *.
  - cbn [PyStr.contains]. now rewrite Hst, IH.
  - rewrite Hs in IH. cbn [PyStr.contains] in *. rewrite <- Hst, <- IH.
    reflexivity.
Qed.

Lemma contains_strip (a : ascii) (word s : string) :
  unstrippable p (String a word) ->
  PyStr.contains (String a word) (PyStr.strip p s)
  = PyStr.contains (String a word) s.
Proof.
  intros Hw. unfold PyStr.strip.
  now rewrite contains_rstrip, contains_lstrip.
Qed.

End StripKeepsWords.

Lemma lit_ci_startswith (kw s : string) :
  found (ActionExecutor.lit_ci kw s)
  = PyStr.startswith (PyStr.lower kw) (PyStr.lower s).
Proof.
  revert s. induction kw as [|a kw IH]; intros s; [reflexivity|].
  destruct s as [|b s]; [reflexivity|]. simpl.
  destruct (Ascii.eqb (PyStr.lower_char a) (PyStr.lower_char b)); [apply IH|reflexivity].
Qed.

Lemma search_done_contains (s : string) :
  found (ActionExecutor.search ActionExecutor.DONE_PATTERN s)
  = PyStr.contains "done" (PyStr.lower s).
Proof.
  assert (Hm : forall t, found (ActionExecutor.DONE_PATTERN t)
                         = PyStr.startswith "done" (PyStr.lower t)).
  { intros t. transitivity (found (ActionExecutor.lit_ci "DONE" t)).
    - unfold ActionExecutor.DONE_PATTERN.
      now destruct (ActionExecutor.lit_ci "DONE" t).
    - apply (lit_ci_startswith "DONE" t). }
  induction s as [|c s IH].
  - reflexivity.
  - cbn [ActionExecutor.search PyStr.lower PyStr.contains].
    change (String (PyStr.lower_char c) (PyStr.lower s))
      with (PyStr.lower (String c s)).
    rewrite <- Hm, <- IH.
    now destruct (ActionExecutor.DONE_PATTERN (String c s)).
Qed.

Lemma search_done_strip (action : string) :
  found (ActionExecutor.search ActionExecutor.DONE_PATTERN
           (PyStr.strip PyStr.is_space action))
  = mentions_done action.
Proof.
  unfold mentions_done. rewrite search_done_contains, lower_strip.
  apply contains_strip. reflexivity.
Qed.

Section Execute.

Variable page : ActionExecutor.PageOracle.
Variable tag_to_xpath : Z -> option string.

Lemma click_not_done (tag_id : Z) :
  ActionExecutor.done (ActionExecutor._click page tag_to_xpath tag_id) = false.
Proof.
  unfold ActionExecutor._click.
  destruct (ActionExecutor.lookup tag_to_xpath tag_id); [|reflexivity].
  now destruct (ActionExecutor.click_raises page s).
Qed.

Lemma type_not_done (tag_id : Z) (text : string) :
  ActionExecutor.done (ActionExecutor._type page tag_to_xpath tag_id text) = false.
Proof.
  unfold ActionExecutor._type.
  destruct (ActionExecutor.lookup tag_to_xpath tag_id); [|reflexivity].
  destruct (ActionExecutor.clear_raises page s); [reflexivity|].
  now destruct (ActionExecutor.fill_raises page s text).
Qed.

Lemma scroll_not_done (direction : string) :
  ActionExecutor.done (ActionExecutor._scroll page direction) = false.
Proof.
  unfold ActionExecutor._scroll.
  now destruct (ActionExecutor.wheel_raises page _).
Qed.

Lemma goto_not_done (url : string) :
  ActionExecutor.done (ActionExecutor._goto page url) = false.
Proof.
  unfold ActionExecutor._goto.
  now destruct (ActionExecutor.goto_raises page _).
Qed.

(** [execute] reports completion exactly on the actions that mention DONE,
    and then does nothing else. *)
Lemma execute_done (action : string) :
  if mentions_done action
  then ActionExecutor.execute page tag_to_xpath action
       = ActionExecutor.mkOutcome true ActionExecutor.TaskDone []
  else ActionExecutor.done (ActionExecutor.execute page tag_to_xpath action) = false.
Proof.
  rewrite <- search_done_strip. unfold ActionExecutor.execute.
  destruct (ActionExecutor.search ActionExecutor.DONE_PATTERN _); [reflexivity|].
  cbn [found].
  destruct (ActionExecutor.search ActionExecutor.PAUSE_PATTERN _); [reflexivity|].
  destruct (ActionExecutor.search ActionExecutor.WAIT_PATTERN _); [reflexivity|].
  destruct (ActionExecutor.search ActionExecutor.CLICK_PATTERN _);
    [apply click_not_done|].
  destruct (ActionExecutor.search ActionExecutor.TYPE_PATTERN _) as [[d t]|];
    [apply type_not_done|].
  destruct (ActionExecutor.search ActionExecutor.SCROLL_PATTERN _);
    [apply scroll_not_done|].
  destruct (ActionExecutor.search ActionExecutor.GOTO_PATTERN _);
    [apply goto_not_done|reflexivity].
Qed.

(** C10.  [execute] returns done exactly when the action contains DONE in
    any letter case; in that case nothing else is performed, as for
    CLICK [3] DONE, and every other action, whatever command it holds,
    returns done false. *)
Theorem C10_done_iff_action_mentions_done (action : string) :
  ActionExecutor.done (ActionExecutor.execute page tag_to_xpath action)
  = mentions_done action
  /\ (if mentions_done action
      then ActionExecutor.execute page tag_to_xpath action
           = ActionExecutor.mkOutcome true ActionExecutor.TaskDone []
      else ActionExecutor.done (ActionExecutor.execute page tag_to_xpath action)
           = false)
  /\ ActionExecutor.execute page tag_to_xpath "CLICK [3] DONE"
     = ActionExecutor.mkOutcome true ActionExecutor.TaskDone []
  /\ ActionExecutor.done (ActionExecutor.execute page tag_to_xpath "WAIT 5") = false
  /\ ActionExecutor.done (ActionExecutor.execute page tag_to_xpath "PAUSE") = false
  /\ ActionExecutor.done (ActionExecutor.execute page tag_to_xpath "CLICK [3]") = false
  /\ ActionExecutor.done (ActionExecutor.execute page tag_to_xpath "TYPE [3] 'text'") = false
  /\ ActionExecutor.done (ActionExecutor.execute page tag_to_xpath "SCROLL DOWN") = false
  /\ ActionExecutor.done (ActionExecutor.execute page tag_to_xpath "GOTO 'shop.example'") = false
  /\ ActionExecutor.done (ActionExecutor.execute page tag_to_xpath "look around") = false.
Proof.
  pose proof (execute_done action) as H.
  split; [|split; [exact H|]].
  - destruct (mentions_done action); [now rewrite H|exact H].
  - split; [exact (execute_done "CLICK [3] DONE")|].
    split; [exact (execute_done "WAIT 5")|].
    split; [exact (execute_done "PAUSE")|].
    split; [exact (execute_done "CLICK [3]")|].
    split; [exact (execute_done "TYPE [3] 'text'")|].
    split; [exact (execute_done "SCROLL DOWN")|].
    split; [exact (execute_done "GOTO 'shop.example'")|].
    exact (execute_done "look around").
Qed.

End Execute.

(** Worked examples of the WAIT command: two seconds by default, at most
    thirty. *)
Example wait_examples :
  ActionExecutor.message
    (ActionExecutor.execute Samples.quiet_page Samples.every_tag "WAIT")
  = ActionExecutor.Waited 2
  /\ ActionExecutor.message
       (ActionExecutor.execute Samples.quiet_page Samples.every_tag "WAIT 999")
     = ActionExecutor.Waited 30.
Proof.
  split; reflexivity.
Qed.

(** ** Task executor loop: live execution *)

Section LiveExecution.

Variable s : WebAgent.Session.




End LiveExecution.


(** ** Task executor loop: choice of the execution mode *)

Section ModeSelection.

Variable json_loads : string -> option dict.

(** C7.  With the browser started and memory available for the current
    site, a plan whose can_plan is the boolean [can_plan] and whose
    confidence is the number [confidence] is executed as planned exactly
    when [can_plan] is true and [confidence] is strictly greater than 0.6;
    otherwise live execution runs. *)
Theorem C7_planned_iff_confidence_above_threshold
  (self : WebAgent.Agent) (plan_reply : LLMOutcome)
  (can_plan : bool) (confidence : float) :
  WebAgent.page_started self = true ->
  WebAgent._use_memory self = true ->
  WebAgent.current_site self <> None ->
  WebAgent.planner self = true ->
  let plan := MemoryBasedPlanner.plan_task json_loads plan_reply in
  dict_get plan "can_plan" = Some (JBool can_plan) ->
  dict_get plan "confidence" = Some (JFloat confidence) ->
  let chosen := WebAgent.execute_task json_loads self plan_reply in
  chosen = (if can_plan && PrimFloat.ltb WebAgent.confidence_threshold confidence
            then WebAgent.PlannedExecution plan
            else WebAgent.LiveExecution)
  /\ (chosen = WebAgent.PlannedExecution plan
      <-> can_plan = true
          /\ PrimFloat.ltb WebAgent.confidence_threshold confidence = true).
Proof.
  intros Hpage Hmem Hsite Hplanner plan Hcan Hconf chosen.
  assert (E : chosen
              = if can_plan && PrimFloat.ltb WebAgent.confidence_threshold confidence
                then WebAgent.PlannedExecution plan
                else WebAgent.LiveExecution).
  { subst chosen. unfold WebAgent.execute_task.
    rewrite Hpage, Hmem, Hplanner.
    destruct (WebAgent.current_site self); [|congruence]. simpl.
    fold plan. unfold WebAgent.select_mode, dict_get_default.
    rewrite Hcan, Hconf. simpl.
    destruct can_plan; simpl; [|reflexivity].
    now destruct (PrimFloat.ltb WebAgent.confidence_threshold confidence). }
  split; [exact E|]. rewrite E.
  destruct can_plan; simpl.
  - destruct (PrimFloat.ltb WebAgent.confidence_threshold confidence).
    + split; auto.
    + split; [discriminate|]. intros [_ H]. discriminate.
  - split; [discriminate|]. intros [H _]. discriminate.
Qed.

End ModeSelection.

(** The scenario of the specification: confidence 0.55 and exactly 0.6 run
    live, 0.61 runs the plan, and a plan that cannot be planned runs live
    whatever its confidence. *)
Lemma C7_planned_iff_confidence_above_threshold_witness :
  WebAgent.execute_task
    (Samples.loads_as (Samples.plan_with true Samples.confidence_0_55))
    Samples.ready_agent (LLMReturns (Some "{}"))
  = WebAgent.LiveExecution
  /\ WebAgent.execute_task
       (Samples.loads_as (Samples.plan_with true Samples.confidence_0_6))
       Samples.ready_agent (LLMReturns (Some "{}"))
     = WebAgent.LiveExecution
  /\ WebAgent.execute_task
       (Samples.loads_as (Samples.plan_with true Samples.confidence_0_61))
       Samples.ready_agent (LLMReturns (Some "{}"))
     = WebAgent.PlannedExecution (Samples.plan_with true Samples.confidence_0_61)
  /\ WebAgent.execute_task
       (Samples.loads_as (Samples.plan_with false Samples.confidence_0_61))
       Samples.ready_agent (LLMReturns (Some "{}"))
     = WebAgent.LiveExecution.
Proof.
  split; [|split; [|split]].
  - refine (proj1 (C7_planned_iff_confidence_above_threshold
                     (Samples.loads_as (Samples.plan_with true Samples.confidence_0_55))
                     Samples.ready_agent (LLMReturns (Some "{}"))
                     true Samples.confidence_0_55 _ _ _ _ _ _));
      solve [reflexivity | discriminate].
  - refine (proj1 (C7_planned_iff_confidence_above_threshold
                     (Samples.loads_as (Samples.plan_with true Samples.confidence_0_6))
                     Samples.ready_agent (LLMReturns (Some "{}"))
                     true Samples.confidence_0_6 _ _ _ _ _ _));
      solve [reflexivity | discriminate].
  - refine (proj1 (C7_planned_iff_confidence_above_threshold
                     (Samples.loads_as (Samples.plan_with true Samples.confidence_0_61))
                     Samples.ready_agent (LLMReturns (Some "{}"))
                     true Samples.confidence_0_61 _ _ _ _ _ _));
      solve [reflexivity | discriminate].
  - refine (proj1 (C7_planned_iff_confidence_above_threshold
                     (Samples.loads_as (Samples.plan_with false Samples.confidence_0_61))
                     Samples.ready_agent (LLMReturns (Some "{}"))
                     false Samples.confidence_0_61 _ _ _ _ _ _));
      solve [reflexivity | discriminate].
Defined.

(* ================================================================== *)
(** * Further properties of the sources *)
(* ================================================================== *)

(** ** Memory store: matching and lookups *)

Section MoreUrlMatching.

Variable urlparse : string -> UrlLib.ParseResult.



Lemma scan_similar_mysql_find (title : string) (rows : list Page.t) :
  MySQLDatabase.scan_similar title rows = find (title_matches title) rows.
Proof.
  induction rows as [|page rest IH]; [reflexivity|].
  simpl. now destruct (title_matches title page).
Qed.

Lemma find_in_filter {A : Type} (f g : A -> bool) (l : list A) (x : A) :
  find f (filter g l) = Some x -> In x l /\ g x = true /\ f x = true.
Proof.
  intros H. pose proof (find_some _ _ H) as [Hin Hf].
  apply filter_In in Hin as [Hin Hg]. auto.
Qed.

(** X2.  Whatever [find_similar_page] returns, in either backend, is a
    stored row of the requested site; [find_task_path] likewise returns a
    stored path of the requested site.  No lookup hands out a row of
    another site. *)
Theorem X2_lookups_stay_in_site
  (db : Store) (site_id : Z) (url title task_description : string) :
  match SQLiteDatabase.find_similar_page urlparse db site_id url title with
  | Some page => In page (pages db) /\ Page.site_id page = site_id
  | None => True
  end
  /\ match MySQLDatabase.find_similar_page db site_id url title with
     | Some page => In page (pages db) /\ Page.site_id page = site_id
     | None => True
     end
  /\ match SQLiteDatabase.find_task_path db site_id task_description with
     | Some task_path =>
         In task_path (task_paths db) /\ TaskPath.site_id task_path = site_id
     | None => True
     end.
Proof.
  split; [|split].
  - destruct (SQLiteDatabase.find_similar_page urlparse db site_id url title)
      as [page|] eqn:H; [|exact I].
    unfold SQLiteDatabase.find_similar_page, select_pages in H.
    rewrite scan_similar_find in H.
    apply find_in_filter in H as (Hin & Hs & _). split; [exact Hin|].
    now apply Z.eqb_eq.
  - destruct (MySQLDatabase.find_similar_page db site_id url title)
      as [page|] eqn:H; [|exact I].
    unfold MySQLDatabase.find_similar_page, select_pages in H.
    rewrite scan_similar_mysql_find in H.
    apply find_in_filter in H as (Hin & Hs & _). split; [exact Hin|].
    now apply Z.eqb_eq.
  - destruct (SQLiteDatabase.find_task_path db site_id task_description)
      as [task_path|] eqn:H; [|exact I].
    unfold SQLiteDatabase.find_task_path in H.
    set (keywords := PyStr.split (PyStr.lower task_description)) in H.
    destruct (best_loop_spec keywords (select_task_paths db site_id) None 0)
      as [[Hr _] | (before & p & after & Hrows & Hr & _)]; rewrite Hr in H.
    + simpl in H. discriminate.
    + destruct (Nat.ltb 0 _); [|discriminate]. injection H as <-.
      assert (Hin : In p (select_task_paths db site_id))
        by (rewrite Hrows; apply in_or_app; right; now left).
      unfold select_task_paths in Hin. apply filter_In in Hin as [Hin Hs].
      split; [exact Hin|now apply Z.eqb_eq].
Qed.

(** X3.  When no stored page of the site matches the URL, the two backends
    of [find_similar_page] return the same page. *)
Theorem X3_backends_agree_without_url_match
  (db : Store) (site_id : Z) (url title : string) :
  (forall q, In q (select_pages db site_id) ->
             SQLiteDatabase._url_matches_pattern urlparse url (Page.url_pattern q)
             = false) ->
  SQLiteDatabase.find_similar_page urlparse db site_id url title
  = MySQLDatabase.find_similar_page db site_id url title.
Proof.
  unfold SQLiteDatabase.find_similar_page, MySQLDatabase.find_similar_page.
  induction (select_pages db site_id) as [|page rest IH]; intros Hno;
    [reflexivity|].
  simpl. rewrite (Hno page) by now left.
  destruct (title_matches title page); [reflexivity|].
  apply IH. intros q Hq. apply Hno. now right.
Qed.

End MoreUrlMatching.


(** On the two sample pages a query for an unknown path is answered by the
    title alone in both backends. *)
Lemma X3_backends_agree_without_url_match_witness :
  SQLiteDatabase.find_similar_page UrlLib.urlparse Samples.two_pages 1
    "http://shop.example/cart/items/3" "orders"
  = MySQLDatabase.find_similar_page Samples.two_pages 1
      "http://shop.example/cart/items/3" "orders".
Proof.
  apply (X3_backends_agree_without_url_match UrlLib.urlparse Samples.two_pages 1
           "http://shop.example/cart/items/3" "orders").
  intros q [<-|[<-|[]]]; reflexivity.
Defined.

(** ** Memory store: sites *)

Lemma max_rowid_ge (rows : list SiteRow.t) (r : SiteRow.t) :
  In r rows -> (SiteRow.id r <= SQLiteDatabase.max_rowid rows)%Z.
Proof.
  induction rows as [|a rows IH]; simpl; [tauto|].
  intros [<-|Hin]; [lia|]. specialize (IH Hin). lia.
Qed.

Lemma find_app_old {A : Type} (f : A -> bool) (l : list A) (x : A) :
  f x = false -> find f (l ++ [x]) = find f l.
Proof.
  intros Hx. induction l as [|a l IH]; simpl.
  - now rewrite Hx.
  - now destruct (f a).
Qed.

(** X4.  After [get_or_create_site], [get_site_by_domain] finds the site
    that was returned, with the same id, name and description; and the
    lookup of any other domain gives what it gave before the call. *)
Theorem X4_site_found_after_get_or_create
  (db : Store) (domain name description other : string) :
  other <> domain ->
  let r := SQLiteDatabase.get_or_create_site db domain name description in
  SQLiteWrites.get_site_by_domain (snd r) domain = Some (fst r)
  /\ SQLiteWrites.get_site_by_domain (snd r) other
     = SQLiteWrites.get_site_by_domain db other.
Proof.
  intros Hne. cbv zeta.
  unfold SQLiteDatabase.get_or_create_site, SQLiteWrites.get_site_by_domain.
  destruct (select_site db domain) as [row|] eqn:Hsel; cbn [fst snd].
  - rewrite Hsel. split; reflexivity.
  - unfold select_site in *. cbn [sites]. split.
    + rewrite (find_app_new _ _ _ Hsel); [reflexivity|].
      cbn [SiteRow.domain]. apply String.eqb_refl.
    + rewrite find_app_old; [reflexivity|].
      cbn [SiteRow.domain]. apply String.eqb_neq. congruence.
Qed.

(** A second domain on a store that knows one site. *)
Lemma X4_site_found_after_get_or_create_witness :
  let db := snd (SQLiteDatabase.get_or_create_site empty_store "shop.example"
                   "Shop" EmptyString) in
  let r := SQLiteDatabase.get_or_create_site db "blog.example" EmptyString
             EmptyString in
  SQLiteWrites.get_site_by_domain (snd r) "blog.example" = Some (fst r)
  /\ SQLiteWrites.get_site_by_domain (snd r) "shop.example"
     = SQLiteWrites.get_site_by_domain db "shop.example".
Proof.
  apply (X4_site_found_after_get_or_create
           (snd (SQLiteDatabase.get_or_create_site empty_store "shop.example"
                   "Shop" EmptyString))
           "blog.example" EmptyString EmptyString "shop.example").
  discriminate.
Defined.

(** X5.  A site that is created gets an id above the id of every row that
    is already stored, the rows already stored are kept in place, and a
    missing name is replaced by the domain. *)
Theorem X5_created_site_is_fresh
  (db : Store) (domain name description : string) :
  select_site db domain = None ->
  let r := SQLiteDatabase.get_or_create_site db domain name description in
  exists id,
    Site.id (fst r) = Some id
    /\ (forall row, In row (sites db) -> (SiteRow.id row < id)%Z)
    /\ (sites_seq db < id)%Z
    /\ sites (snd r)
       = sites db ++ [SiteRow.mk id domain (Site.name (fst r)) description]
    /\ sites_seq (snd r) = id
    /\ Site.name (fst r) = (if PyStr.truthy name then name else domain).
Proof.
  intros Hsel. cbv zeta. unfold SQLiteDatabase.get_or_create_site.
  rewrite Hsel. cbn [fst snd Site.id Site.name sites sites_seq].
  exists (SQLiteDatabase.next_site_id db). repeat split.
  - intros row Hin. apply max_rowid_ge in Hin.
    unfold SQLiteDatabase.next_site_id. lia.
  - unfold SQLiteDatabase.next_site_id. lia.
Qed.

(** The first site of an empty store. *)
Lemma X5_created_site_is_fresh_witness :
  exists id,
    Site.id (fst (SQLiteDatabase.get_or_create_site empty_store "shop.example"
                    EmptyString "a shop")) = Some id
    /\ (forall row, In row (sites empty_store) -> (SiteRow.id row < id)%Z)
    /\ (sites_seq empty_store < id)%Z
    /\ sites (snd (SQLiteDatabase.get_or_create_site empty_store "shop.example"
                     EmptyString "a shop"))
       = sites empty_store
         ++ [SiteRow.mk id "shop.example"
               (Site.name (fst (SQLiteDatabase.get_or_create_site empty_store
                                  "shop.example" EmptyString "a shop")))
               "a shop"]
    /\ sites_seq (snd (SQLiteDatabase.get_or_create_site empty_store
                         "shop.example" EmptyString "a shop")) = id
    /\ Site.name (fst (SQLiteDatabase.get_or_create_site empty_store
                         "shop.example" EmptyString "a shop"))
       = "shop.example".
Proof.
  apply (X5_created_site_is_fresh empty_store "shop.example" EmptyString "a shop").
  reflexivity.
Defined.

(** ** Memory store: saving pages *)

Lemma max_page_id_ge (rows : list Page.t) (r : Page.t) :
  In r rows -> (SQLiteWrites.id_value (Page.id r) <= SQLiteWrites.max_page_id rows)%Z.
Proof.
  induction rows as [|a rows IH]; simpl; [tauto|].
  intros [<-|Hin]; [lia|]. specialize (IH Hin). lia.
Qed.

Lemma max_page_id_nonneg (rows : list Page.t) :
  (0 <= SQLiteWrites.max_page_id rows)%Z.
Proof.
  induction rows as [|a rows IH]; simpl; lia.
Qed.

(** X6.  Saving a page whose id is unset (missing or zero) appends one row:
    the returned page carries an id that no stored row has, the pages of
    its site are the earlier ones followed by the returned page, and the
    pages of every other site are untouched. *)
Theorem X6_save_page_inserts
  (c : Connection) (page : Page.t) (other_site : Z) :
  SQLiteWrites.id_set (Page.id page) = false ->
  other_site <> Page.site_id page ->
  let r := SQLiteWrites.save_page c page in
  (exists id,
      Page.id (fst r) = Some id
      /\ id <> 0%Z
      /\ forall row, In row (pages (tables c)) -> Page.id row <> Some id)
  /\ SQLiteWrites.get_pages_by_site (snd r) (Page.site_id page)
     = SQLiteWrites.get_pages_by_site c (Page.site_id page) ++ [fst r]
  /\ SQLiteWrites.get_pages_by_site (snd r) other_site
     = SQLiteWrites.get_pages_by_site c other_site
  /\ Page.url_pattern (fst r) = Page.url_pattern page
  /\ Page.sample_url (fst r) = Page.sample_url page
  /\ Page.title_pattern (fst r) = Page.title_pattern page.
Proof.
  intros Hid Hother. cbv zeta. unfold SQLiteWrites.save_page. rewrite Hid.
  cbn [fst snd]. split; [|split; [|split; [|repeat split]]].
  - eexists. split; [reflexivity|].
    pose proof (max_page_id_nonneg (pages (tables c))). split; [lia|].
    intros row Hin Heq. apply max_page_id_ge in Hin. rewrite Heq in Hin.
    simpl in Hin. lia.
  - unfold SQLiteWrites.get_pages_by_site, select_pages. cbn.
    rewrite filter_app. cbn. now rewrite Z.eqb_refl.
  - unfold SQLiteWrites.get_pages_by_site, select_pages. cbn.
    rewrite filter_app. cbn.
    destruct (Z.eqb (Page.site_id page) other_site) eqn:E;
      [apply Z.eqb_eq in E; congruence|apply app_nil_r].
Qed.

(** The first page saved on a fresh connection. *)
Lemma X6_save_page_inserts_witness :
  let r := SQLiteWrites.save_page MoreSamples.fresh_connection
             MoreSamples.login_page in
  (exists id,
      Page.id (fst r) = Some id
      /\ id <> 0%Z
      /\ forall row, In row (pages (tables MoreSamples.fresh_connection)) ->
                     Page.id row <> Some id)
  /\ SQLiteWrites.get_pages_by_site (snd r) 1
     = SQLiteWrites.get_pages_by_site MoreSamples.fresh_connection 1 ++ [fst r]
  /\ SQLiteWrites.get_pages_by_site (snd r) 2
     = SQLiteWrites.get_pages_by_site MoreSamples.fresh_connection 2
  /\ Page.url_pattern (fst r) = "http://shop.example/login"
  /\ Page.sample_url (fst r) = "http://shop.example/login?next=/"
  /\ Page.title_pattern (fst r) = "Sign in".
Proof.
  apply (X6_save_page_inserts MoreSamples.fresh_connection
           MoreSamples.login_page 2); [reflexivity|discriminate].
Defined.

Lemma update_page_row_keeps (page row : Page.t) :
  Page.id (SQLiteWrites.update_page_row page row) = Page.id row
  /\ Page.site_id (SQLiteWrites.update_page_row page row) = Page.site_id row.
Proof.
  unfold SQLiteWrites.update_page_row.
  now destruct (Z.eqb _ _).
Qed.

(** X7.  Saving a page whose id is set updates in place: the number of
    rows, their order, their ids and the site each row belongs to stay as
    they were (the site of the argument is not written), no id is handed
    out, and when no row has that id the table is left as it was. *)
Theorem X7_save_page_updates_in_place (c : Connection) (page : Page.t) :
  SQLiteWrites.id_set (Page.id page) = true ->
  let r := SQLiteWrites.save_page c page in
  fst r = page
  /\ map Page.id (pages (tables (snd r))) = map Page.id (pages (tables c))
  /\ map Page.site_id (pages (tables (snd r))) = map Page.site_id (pages (tables c))
  /\ pages_seq (snd r) = pages_seq c
  /\ ((forall row, In row (pages (tables c)) -> Page.id row <> Page.id page) ->
      pages (tables (snd r)) = pages (tables c)).
Proof.
  intros Hid. cbv zeta. unfold SQLiteWrites.save_page. rewrite Hid.
  cbn [fst snd SQLiteWrites.with_pages tables pages pages_seq].
  split; [reflexivity|]. split; [|split; [|split; [reflexivity|]]].
  - rewrite map_map. apply map_ext. intros row.
    apply (update_page_row_keeps page row).
  - rewrite map_map. apply map_ext. intros row.
    apply (update_page_row_keeps page row).
  - intros Hno. rewrite <- (map_id (pages (tables c))) at 2.
    apply map_ext_in. intros row Hin. unfold SQLiteWrites.update_page_row.
    destruct (Z.eqb _ _) eqn:E; [|reflexivity].
    exfalso. apply (Hno row Hin). apply Z.eqb_eq in E.
    destruct (Page.id page) as [z|]; [|discriminate].
    destruct (Page.id row) as [z'|]; simpl in *.
    + now subst.
    + subst. rewrite Z.eqb_refl in Hid. discriminate.
Qed.

(** An update for an id that no row has: nothing changes. *)
Lemma X7_save_page_updates_in_place_witness :
  let c := snd (SQLiteWrites.save_page MoreSamples.fresh_connection
                  MoreSamples.login_page) in
  let page := Samples.page 7 "http://shop.example/cart" "Cart" in
  let r := SQLiteWrites.save_page c page in
  fst r = page
  /\ map Page.id (pages (tables (snd r))) = map Page.id (pages (tables c))
  /\ map Page.site_id (pages (tables (snd r))) = map Page.site_id (pages (tables c))
  /\ pages_seq (snd r) = pages_seq c
  /\ ((forall row, In row (pages (tables c)) -> Page.id row <> Page.id page) ->
      pages (tables (snd r)) = pages (tables c)).
Proof.
  apply (X7_save_page_updates_in_place
           (snd (SQLiteWrites.save_page MoreSamples.fresh_connection
                   MoreSamples.login_page))
           (Samples.page 7 "http://shop.example/cart" "Cart")).
  reflexivity.
Defined.

Section SavedPagesAreFound.

Variable urlparse : string -> UrlLib.ParseResult.



End SavedPagesAreFound.


(** ** Memory store: recorded tasks are found again *)

Lemma lower_app (a b : string) :
  PyStr.lower (a ++ b) = (PyStr.lower a ++ PyStr.lower b)%string.
Proof.
  induction a as [|c a IH]; simpl; [reflexivity|now rewrite IH].
Qed.

Lemma truthy_lower (s : string) : PyStr.truthy (PyStr.lower s) = PyStr.truthy s.
Proof.
  now destruct s.
Qed.

Lemma split_ws_from_lower (s : string) :
  forall cur,
    PyStr.split_ws_from (PyStr.lower cur) (PyStr.lower s)
    = map PyStr.lower (PyStr.split_ws_from cur s).
Proof.
  induction s as [|c s IH]; intros cur; simpl.
  - rewrite truthy_lower. now destruct (PyStr.truthy cur).
  - rewrite is_space_lower_char, truthy_lower.
    destruct (PyStr.is_space c).
    + destruct (PyStr.truthy cur); simpl; [f_equal|]; apply (IH EmptyString).
    + rewrite <- IH, lower_app. reflexivity.
Qed.

Lemma split_lower (s : string) :
  PyStr.split (PyStr.lower s) = map PyStr.lower (PyStr.split s).
Proof.
  apply (split_ws_from_lower s EmptyString).
Qed.

Lemma lower_join_spaces (words : list string) :
  PyStr.lower (join_spaces words) = join_spaces (map PyStr.lower words).
Proof.
  induction words as [|w words IH]; [reflexivity|].
  destruct words as [|w' words]; [reflexivity|].
  change (join_spaces (w :: w' :: words))
    with (w ++ " " ++ join_spaces (w' :: words))%string.
  change (join_spaces (map PyStr.lower (w :: w' :: words)))
    with (PyStr.lower w ++ " " ++ join_spaces (map PyStr.lower (w' :: words)))%string.
  now rewrite !lower_app, IH.
Qed.

Lemma startswith_app (sub rest : string) :
  PyStr.startswith sub (sub ++ rest) = true.
Proof.
  induction sub as [|c sub IH]; [reflexivity|].
  simpl. now rewrite Ascii.eqb_refl.
Qed.

Lemma contains_prefix (sub rest : string) :
  PyStr.contains sub (sub ++ rest) = true.
Proof.
  destruct sub as [|c sub]; [now destruct rest|].
  cbn [append PyStr.contains].
  change (String c (sub ++ rest)) with (String c sub ++ rest)%string.
  now rewrite startswith_app.
Qed.

Lemma contains_refl (s : string) : PyStr.contains s s = true.
Proof.
  assert (H : forall t, PyStr.startswith t t = true).
  { induction t as [|c t IH]; [reflexivity|].
    simpl. now rewrite Ascii.eqb_refl. }
  destruct s as [|c s]; [reflexivity|].
  cbn [PyStr.contains]. now rewrite H.
Qed.

Lemma contains_after (sub before s : string) :
  PyStr.contains sub s = true -> PyStr.contains sub (before ++ s) = true.
Proof.
  intros H. induction before as [|c before IH]; [exact H|].
  cbn [append PyStr.contains]. rewrite IH. apply orb_true_r.
Qed.

Lemma contains_join_spaces (w : string) (words : list string) :
  In w words -> PyStr.contains w (join_spaces words) = true.
Proof.
  induction words as [|w0 words IH]; [intros []|].
  destruct words as [|w1 words].
  - intros [<-|[]]. cbn [join_spaces]. apply contains_refl.
  - change (join_spaces (w0 :: w1 :: words))
      with (w0 ++ " " ++ join_spaces (w1 :: words))%string.
    intros [<-|Hin]; [apply contains_prefix|].
    apply contains_after, contains_after. now apply IH.
Qed.

Lemma keyword_score_le (keywords : list string) (task_path : TaskPath.t) :
  SQLiteDatabase.keyword_score keywords task_path <= length keywords.
Proof.
  apply filter_length_le.
Qed.

Lemma keyword_score_full (keywords : list string) (task_path : TaskPath.t) :
  (forall kw, In kw keywords ->
     PyStr.contains kw (PyStr.lower (TaskPath.task_keywords task_path)) = true) ->
  SQLiteDatabase.keyword_score keywords task_path = length keywords.
Proof.
  unfold SQLiteDatabase.keyword_score. intros H.
  induction keywords as [|kw keywords IH]; [reflexivity|].
  simpl. rewrite (H kw) by now left. simpl. f_equal.
  apply IH. intros k Hk. apply H. now right.
Qed.

(** X9.  A task recorded after a successful run is found again by its own
    description: when the instruction holds at least one word,
    [find_task_path] on the same site and instruction returns a stored path
    of that site whose keywords contain every word of the instruction. *)
Theorem X9_recorded_task_is_found
  (c : Connection) (site_id : Z) (instruction action_sequence : string) :
  PyStr.split instruction <> [] ->
  let c' := TaskRecorder._record_task c site_id instruction action_sequence in
  let keywords := PyStr.split (PyStr.lower instruction) in
  exists task_path,
    SQLiteDatabase.find_task_path (tables c') site_id instruction = Some task_path
    /\ TaskPath.site_id task_path = site_id
    /\ SQLiteDatabase.keyword_score keywords task_path = length keywords
    /\ 0 < length keywords.
Proof.
  intros Hwords. cbv zeta.
  set (keywords := PyStr.split (PyStr.lower instruction)).
  set (stored := TaskPath.mk
                   (Some (Z.max (task_paths_seq c)
                            (SQLiteWrites.max_task_path_id (task_paths (tables c))) + 1)%Z)
                   site_id instruction (join_spaces (PyStr.split instruction))
                   action_sequence None None 1 0).
  assert (Hlen : 0 < length keywords).
  { subst keywords. rewrite split_lower, length_map.
    destruct (PyStr.split instruction); [congruence|simpl; lia]. }
  assert (Hfull : SQLiteDatabase.keyword_score keywords stored = length keywords).
  { apply keyword_score_full. intros kw Hkw. subst keywords stored.
    cbn [TaskPath.task_keywords]. rewrite lower_join_spaces, <- split_lower.
    now apply contains_join_spaces. }
  assert (Hrows : select_task_paths
                    (tables (TaskRecorder._record_task c site_id instruction
                               action_sequence)) site_id
                  = select_task_paths (tables c) site_id ++ [stored]).
  { unfold TaskRecorder._record_task, SQLiteWrites.save_task_path,
      select_task_paths. cbn. rewrite filter_app. cbn.
    now rewrite Z.eqb_refl. }
  unfold SQLiteDatabase.find_task_path. fold keywords. rewrite Hrows.
  destruct (best_loop_spec keywords
              (select_task_paths (tables c) site_id ++ [stored]) None 0)
    as [[Hr Hle] | (before & p & after & Hsplit & Hr & Hpos & Hb & Ha)].
  - exfalso. specialize (Hle stored). rewrite Hfull in Hle.
    assert (length keywords <= 0)
      by (apply Hle, in_or_app; right; now left). lia.
  - rewrite Hr. destruct (Nat.ltb 0 _) eqn:E; [|apply Nat.ltb_ge in E; lia].
    exists p. split; [reflexivity|].
    assert (Hin : In p (select_task_paths (tables c) site_id ++ [stored]))
      by (rewrite Hsplit; apply in_or_app; right; now left).
    split.
    + apply in_app_or in Hin as [Hin|[<-|[]]]; [|reflexivity].
      unfold select_task_paths in Hin. apply filter_In in Hin as [_ Hs].
      now apply Z.eqb_eq.
    + split; [|exact Hlen].
      pose proof (keyword_score_le keywords p) as Hup.
      assert (Hst : In stored (before ++ p :: after))
        by (rewrite <- Hsplit; apply in_or_app; right; now left).
      apply in_app_or in Hst as [Hst|[Hst|Hst]].
      * apply Hb in Hst. lia.
      * subst p. exact Hfull.
      * apply Ha in Hst. lia.
Qed.

(** Recording and finding a two-word instruction on a fresh connection. *)
Lemma X9_recorded_task_is_found_witness :
  let c' := TaskRecorder._record_task MoreSamples.fresh_connection 1
              "Search  Products" "[]" in
  let keywords := PyStr.split (PyStr.lower "Search  Products") in
  exists task_path,
    SQLiteDatabase.find_task_path (tables c') 1 "Search  Products" = Some task_path
    /\ TaskPath.site_id task_path = 1%Z
    /\ SQLiteDatabase.keyword_score keywords task_path = length keywords
    /\ 0 < length keywords.
Proof.
  apply (X9_recorded_task_is_found MoreSamples.fresh_connection 1
           "Search  Products" "[]").
  discriminate.
Defined.

(** ** Exploration engine: collection and ordering *)

Lemma key_in_spec (k : SiteExplorer.ItemKey) (visited : list SiteExplorer.ItemKey) :
  SiteExplorer.key_in k visited = true <-> In k visited.
Proof.
  unfold SiteExplorer.key_in. rewrite existsb_exists. split.
  - intros (x & Hin & Heq). unfold SiteExplorer.key_eqb in Heq.
    apply andb_true_iff in Heq as [H1 H2].
    apply Z.eqb_eq in H1. apply String.eqb_eq in H2.
    destruct k, x; simpl in *; subst. exact Hin.
  - intros Hin. exists k. split; [exact Hin|].
    unfold SiteExplorer.key_eqb. now rewrite Z.eqb_refl, String.eqb_refl.
Qed.

Lemma key_in_false (k : SiteExplorer.ItemKey) (visited : list SiteExplorer.ItemKey) :
  SiteExplorer.key_in k visited = false <-> ~ In k visited.
Proof.
  rewrite <- key_in_spec. destruct (SiteExplorer.key_in k visited); split;
    congruence.
Qed.

Section Collection.

Variable tag_to_xpath : Z -> option string.
Variable visited_items : list SiteExplorer.ItemKey.
Variable page_id : Z.
Variable current_url : string.

Lemma should_explore_collectable (e : SiteExplorer.ElemInfo) (tag : Z) :
  SiteExplorer.tag_id e = Some tag ->
  SiteExplorer.should_explore visited_items page_id e (tag_to_xpath tag) = true ->
  exists xp,
    tag_to_xpath tag = Some xp
    /\ queued_from tag_to_xpath visited_items page_id
         (SiteExplorer.make_item page_id current_url 0 e xp) e.
Proof.
  intros Htag H. unfold SiteExplorer.should_explore in H.
  apply andb_true_iff in H as [H Hvis]. apply andb_true_iff in H as [Hrule Hxp].
  destruct (tag_to_xpath tag) as [xp|] eqn:Ex; [|discriminate].
  exists xp. split; [reflexivity|]. split; [|repeat split].
  exists tag, xp. repeat split; try assumption.
  - destruct xp; [discriminate|discriminate].
  - apply orb_true_iff in Hrule as [Hrule|Hrule];
      [apply orb_true_iff in Hrule as [Hrule|Hrule]|]; auto.
    right; right. now apply Z.leb_le.
  - apply key_in_false. now apply negb_true_iff.
Qed.


End Collection.

Section SortStable.

Variable key : SiteExplorer.Item -> Z.

Lemma with_key_insert_desc (k : Z) (x : SiteExplorer.Item) (l : list SiteExplorer.Item) :
  with_key key k (SiteExplorer.insert_desc key x l)
  = if Z.eqb (key x) k then x :: with_key key k l else with_key key k l.
Proof.
  unfold with_key. induction l as [|y l IH]; simpl; [reflexivity|].
  destruct (Z.ltb (key x) (key y)) eqn:Hlt; simpl.
  - rewrite IH. apply Z.ltb_lt in Hlt.
    destruct (Z.eqb (key y) k) eqn:Ey; [|reflexivity].
    apply Z.eqb_eq in Ey.
    destruct (Z.eqb (key x) k) eqn:Ex; [apply Z.eqb_eq in Ex; lia|reflexivity].
  - reflexivity.
Qed.

(** The sort is stable: items with the same key keep their order. *)
Lemma sort_desc_stable (k : Z) (l : list SiteExplorer.Item) :
  with_key key k (SiteExplorer.sort_desc key l) = with_key key k l.
Proof.
  induction l as [|x l IH]; [reflexivity|].
  cbn [SiteExplorer.sort_desc]. rewrite with_key_insert_desc, IH.
  unfold with_key. simpl. reflexivity.
Qed.

End SortStable.


(** X11.  After the first collection the pending items are the collected
    ones in decreasing order of the rank key (10 for navigation, 9 create,
    8 read and update, 7 delete, otherwise the raw priority), and items
    with the same key stay in the order in which they were collected. *)
Theorem X11_first_sort_is_stable_descending
  (tag_to_xpath : Z -> option string) (visited_items : list SiteExplorer.ItemKey)
  (page_id : Z) (current_url : string)
  (elements_info : list SiteExplorer.ElemInfo) (next_eid k : Z)
  (pending : list SiteExplorer.Item) :
  let collected :=
    fst (SiteExplorer.collect_loop tag_to_xpath visited_items page_id current_url
           elements_info next_eid pending) in
  let sorted :=
    fst (SiteExplorer._analyze_and_collect_items tag_to_xpath visited_items
           page_id current_url elements_info next_eid pending) in
  Permutation collected sorted
  /\ Sorted (key_ge SiteExplorer.rank_key) sorted
  /\ with_key SiteExplorer.rank_key k sorted
     = with_key SiteExplorer.rank_key k collected.
Proof.
  cbv zeta. unfold SiteExplorer._analyze_and_collect_items.
  destruct (SiteExplorer.collect_loop _ _ _ _ _ _ _) as [pending' eid'].
  cbn [fst]. split; [apply sort_desc_perm|].
  split; [apply sort_desc_sorted|apply sort_desc_stable].
Qed.

Section AfterClick.

Variable tag_to_xpath : Z -> option string.
Variable visited_items : list SiteExplorer.ItemKey.
Variable page_id : Z.
Variable current_url : string.

Lemma existing_false_key (pending : list SiteExplorer.Item) (e : SiteExplorer.ElemInfo) :
  SiteExplorer.existing page_id pending e = false ->
  ~ In (page_id, SiteExplorer.semantic_name e) (keys_of pending).
Proof.
  unfold SiteExplorer.existing, keys_of. intros H Hin.
  apply in_map_iff in Hin as (n & Hkey & Hin).
  assert (Hex : existsb
                  (fun n0 => String.eqb (SiteExplorer.name n0) (SiteExplorer.semantic_name e)
                             && Z.eqb (SiteExplorer.source_page_id n0) page_id)
                  pending = true).
  { apply existsb_exists. exists n. split; [exact Hin|].
    unfold Exploration.item_key in Hkey. injection Hkey as H1 H2.
    now rewrite H1, H2, Z.eqb_refl, String.eqb_refl. }
  congruence.
Qed.

(** The collection loop that follows a click: what it appends, and that it
    never queues a name that is already pending for the page. *)
Lemma collect_after_click_loop_spec (elements_info : list SiteExplorer.ElemInfo) :
  forall (next_eid : Z) (pending : list SiteExplorer.Item) (new_items : nat),
    let r := SiteExplorer.collect_after_click_loop tag_to_xpath visited_items
               page_id current_url elements_info next_eid pending new_items in
    exists added,
      r = (pending ++ added,
           (next_eid + Z.of_nat (length (filter tagged elements_info)))%Z,
           new_items + length added)
      /\ Forall (fun item =>
                   exists e, In e elements_info
                             /\ queued_from tag_to_xpath visited_items page_id item e)
                added
      /\ (NoDup (keys_of pending) -> NoDup (keys_of (pending ++ added))).
Proof.
  induction elements_info as [|e rest IH]; intros next_eid pending new_items;
    cbn zeta.
  - exists []. cbn. rewrite app_nil_r, Z.add_0_r, Nat.add_0_r.
    repeat split; [constructor|auto].
  - cbn [SiteExplorer.collect_after_click_loop filter]. unfold tagged at 1.
    destruct (SiteExplorer.tag_id e) as [tag|] eqn:Htag.
    + destruct (SiteExplorer.should_explore visited_items page_id e (tag_to_xpath tag))
        eqn:Hex; cbn [andb].
      * destruct (should_explore_collectable tag_to_xpath visited_items page_id
                    current_url e tag Htag Hex) as (xp & Hxp & Hq).
        destruct (SiteExplorer.existing page_id pending e) eqn:Hdup; cbn [negb].
        -- destruct (IH (next_eid + 1)%Z pending new_items)
             as (added & Hr & Hall & Hnd).
           exists added. rewrite Hr. cbn [length].
           split; [f_equal; f_equal; lia|]. split; [|exact Hnd].
           eapply Forall_impl; [|exact Hall]. cbn beta.
           intros item (e' & Hin & Hq'). exists e'. split; [now right|exact Hq'].
        -- rewrite Hxp.
           set (item := SiteExplorer.make_item page_id current_url next_eid e xp).
           destruct (IH (next_eid + 1)%Z (pending ++ [item]) (S new_items))
             as (added & Hr & Hall & Hnd).
           exists (item :: added). rewrite Hr, <- app_assoc. cbn [length app].
           split; [f_equal; [f_equal; lia|lia]|]. split.
           ++ constructor; [exists e; split; [now left|exact Hq]|].
              eapply Forall_impl; [|exact Hall]. cbn beta.
              intros it (e' & Hin & Hq'). exists e'. split; [now right|exact Hq'].
           ++ intros Hp. rewrite <- app_assoc in Hnd. apply Hnd.
              unfold keys_of. rewrite map_app. cbn [map].
              apply NoDup_app_remove_l with (l := []). cbn.
              apply Permutation_NoDup
                with (l := Exploration.item_key item :: map Exploration.item_key pending).
              ** apply Permutation_cons_append.
              ** constructor; [|exact Hp].
                 apply (existing_false_key pending e Hdup).
      * destruct (IH (next_eid + 1)%Z pending new_items)
          as (added & Hr & Hall & Hnd).
        exists added. rewrite Hr. cbn [length].
        split; [f_equal; f_equal; lia|]. split; [|exact Hnd].
        eapply Forall_impl; [|exact Hall]. cbn beta.
        intros item (e' & Hin & Hq'). exists e'. split; [now right|exact Hq'].
    + destruct (IH next_eid pending new_items) as (added & Hr & Hall & Hnd).
      exists added. rewrite Hr. split; [reflexivity|]. split; [|exact Hnd].
      eapply Forall_impl; [|exact Hall]. cbn beta.
      intros item (e' & Hin & Hq'). exists e'. split; [now right|exact Hq'].
Qed.

(** X12.  The collection that follows a click only adds items of elements
    that pass the collection rule, and never a second item with a name
    that is already pending for the page: a queue without duplicate keys
    stays without duplicate keys.  When nothing new is found the queue is
    left exactly as it was; when something is added the whole queue is
    re-sorted by decreasing raw priority. *)
Theorem X12_after_click_collection
  (elements_info : list SiteExplorer.ElemInfo) (next_eid : Z)
  (pending : list SiteExplorer.Item) :
  NoDup (keys_of pending) ->
  let r := SiteExplorer._analyze_after_click tag_to_xpath visited_items page_id
             current_url elements_info next_eid pending in
  exists added,
    Permutation (pending ++ added) (fst r)
    /\ Forall (fun item =>
                 exists e, In e elements_info
                           /\ queued_from tag_to_xpath visited_items page_id item e)
              added
    /\ NoDup (keys_of (fst r))
    /\ (added = [] -> fst r = pending)
    /\ (added <> [] -> Sorted (key_ge SiteExplorer.priority_key) (fst r)).
Proof.
  intros Hnd. cbv zeta. unfold SiteExplorer._analyze_after_click.
  destruct (collect_after_click_loop_spec elements_info next_eid pending 0)
    as (added & Hr & Hall & Hkeep).
  rewrite Hr. exists added. cbn [Nat.add].
  destruct added as [|item added].
  - cbn [length Nat.ltb Nat.leb fst]. rewrite app_nil_r.
    repeat split; auto. congruence.
  - cbn [length]. change (Nat.ltb 0 (S (length added))) with true. cbn [fst].
    split; [apply sort_desc_perm|]. split; [exact Hall|].
    split; [|split; [discriminate|intros _; apply sort_desc_sorted]].
    apply Permutation_NoDup with (l := keys_of (pending ++ item :: added)).
    + unfold keys_of. apply Permutation_map, sort_desc_perm.
    + now apply Hkeep.
Qed.

End AfterClick.

(** A page that shows the four sample elements after a click, on an empty
    queue. *)
Lemma X12_after_click_collection_witness :
  let r := SiteExplorer._analyze_after_click Samples.every_tag [] 1
             "http://shop.example/home"
             [Samples.e_action; Samples.e_nav; Samples.e_delete; Samples.e_create]
             1 [] in
  exists added,
    Permutation ([] ++ added) (fst r)
    /\ Forall (fun item =>
                 exists e,
                   In e [Samples.e_action; Samples.e_nav; Samples.e_delete;
                         Samples.e_create]
                   /\ queued_from Samples.every_tag [] 1 item e)
              added
    /\ NoDup (keys_of (fst r))
    /\ (added = [] -> fst r = [])
    /\ (added <> [] -> Sorted (key_ge SiteExplorer.priority_key) (fst r)).
Proof.
  apply (X12_after_click_collection Samples.every_tag [] 1
           "http://shop.example/home"
           [Samples.e_action; Samples.e_nav; Samples.e_delete; Samples.e_create]
           1 []).
  constructor.
Defined.

(** ** Exploration engine: the drain loop *)

Section Drain.

Variable urlparse : string -> UrlLib.ParseResult.
Variable click : SiteExplorer.Item -> nat -> option Exploration.ClickResult.

Lemma after_click_keeps (r : Exploration.ClickResult) (st : Exploration.State) :
  Exploration.visited_items (Exploration.after_click urlparse r st)
  = Exploration.visited_items st
  /\ Exploration.clicked (Exploration.after_click urlparse r st)
     = Exploration.clicked st.
Proof.
  unfold Exploration.after_click.
  destruct (_ || _); [|now split].
  destruct (Exploration.tag_map r); [|now split].
  destruct (SiteExplorer._analyze_after_click _ _ _ _ _ _ _). now split.
Qed.

Lemma next_unvisited_spec (visited : list SiteExplorer.ItemKey)
  (pending : list SiteExplorer.Item) :
  match Exploration.next_unvisited visited pending with
  | Some (item, rest) =>
      ~ In (Exploration.item_key item) visited
      /\ exists skipped,
           pending = skipped ++ item :: rest
           /\ Forall (fun i => In (Exploration.item_key i) visited) skipped
  | None => Forall (fun i => In (Exploration.item_key i) visited) pending
  end.
Proof.
  induction pending as [|item rest IH]; simpl; [constructor|].
  destruct (SiteExplorer.key_in (Exploration.item_key item) visited) eqn:E.
  - apply key_in_spec in E.
    destruct (Exploration.next_unvisited visited rest) as [[i r]|].
    + destruct IH as (Hn & skipped & -> & Hs). split; [exact Hn|].
      exists (item :: skipped). split; [reflexivity|now constructor].
    + now constructor.
  - apply key_in_false in E. split; [exact E|].
    exists []. split; [reflexivity|constructor].
Qed.

(** What the loop keeps: the clicked items extend the earlier ones, their
    keys are exactly what is added to the visited set, the visited set
    stays free of duplicates, the budget bounds the clicks, and the loop
    stops on an empty queue or a spent budget. *)
Lemma drain_spec (budget : nat) :
  forall (explored_count : nat) (st : Exploration.State),
    NoDup (Exploration.visited_items st) ->
    let st' := Exploration.drain urlparse click budget explored_count st in
    exists new,
      Exploration.clicked st' = Exploration.clicked st ++ new
      /\ Exploration.visited_items st'
         = Exploration.visited_items st ++ keys_of new
      /\ NoDup (Exploration.visited_items st')
      /\ length new <= budget
      /\ (Exploration.pending_items st' = [] \/ length new = budget).
Proof.
  induction budget as [|budget IH]; intros explored_count st Hnd; cbn zeta.
  - exists []. cbn. rewrite !app_nil_r. repeat split; auto.
  - cbn [Exploration.drain].
    pose proof (next_unvisited_spec (Exploration.visited_items st)
                  (Exploration.pending_items st)) as Hnext.
    destruct (Exploration.next_unvisited _ _) as [[item rest]|].
    + destruct Hnext as (Hfresh & _).
      set (st1 := Exploration.mkState _ _ rest _ _ _).
      set (st2 := match click item (S explored_count) with
                  | Some r => Exploration.after_click urlparse r st1
                  | None => st1
                  end).
      assert (Hkeep : Exploration.visited_items st2 = Exploration.visited_items st1
                      /\ Exploration.clicked st2 = Exploration.clicked st1).
      { subst st2. destruct (click item (S explored_count));
          [apply after_click_keeps|now split]. }
      destruct Hkeep as [Hv Hc].
      destruct (IH (S explored_count) st2) as (new & Hcl & Hvis & Hnd' & Hlen & Hend).
      { rewrite Hv. subst st1. cbn.
        apply NoDup_app_remove_l with (l := []). cbn.
        apply Permutation_NoDup
          with (l := Exploration.item_key item :: Exploration.visited_items st).
        - apply Permutation_cons_append.
        - now constructor. }
      exists (item :: new). rewrite Hcl, Hvis, Hc, Hv. subst st1. cbn.
      rewrite <- !app_assoc. cbn.
      split; [reflexivity|]. split; [reflexivity|].
      split; [rewrite Hvis, Hv in Hnd'; cbn in Hnd'; now rewrite <- app_assoc in Hnd'|].
      split; [lia|]. destruct Hend as [Hend|Hend]; [now left|right; lia].
    + exists []. cbn. rewrite !app_nil_r. repeat split; auto. lia.
Qed.

(** X13.  The drain loop never activates an affordance twice and never one
    that was already visited: the keys of the clicked items are pairwise
    different, none of them was visited before the loop, and all of them
    are visited after it. *)
Theorem X13_no_item_clicked_twice (max_pages : Z) (st : Exploration.State) :
  NoDup (Exploration.visited_items st) ->
  Exploration.clicked st = [] ->
  let st' := Exploration._explore_all_items urlparse click max_pages st in
  NoDup (keys_of (Exploration.clicked st'))
  /\ (forall item, In item (Exploration.clicked st') ->
        ~ In (Exploration.item_key item) (Exploration.visited_items st)
        /\ In (Exploration.item_key item) (Exploration.visited_items st'))
  /\ Exploration.visited_items st'
     = Exploration.visited_items st ++ keys_of (Exploration.clicked st').
Proof.
  intros Hnd Hempty. cbv zeta. unfold Exploration._explore_all_items.
  destruct (drain_spec (Z.to_nat (max_pages * 3)) 0 st Hnd)
    as (new & Hcl & Hvis & Hnd' & _).
  rewrite Hempty in Hcl. cbn in Hcl. rewrite Hcl, Hvis.
  rewrite Hvis in Hnd'. split; [|split; [|reflexivity]].
  - now apply NoDup_app_remove_l in Hnd'.
  - intros item Hin.
    assert (Hk : In (Exploration.item_key item) (keys_of new))
      by (unfold keys_of; now apply in_map).
    split; [|apply in_or_app; now right].
    intros Hold. revert Hnd' Hold Hk. generalize (keys_of new).
    generalize (Exploration.visited_items st).
    induction l as [|a l IHl]; intros l0 Hn Hold Hk; [destruct Hold|].
    cbn in Hn. inversion Hn as [|? ? Hnotin Hn']; subst.
    destruct Hold as [->|Hold]; [|now apply (IHl l0)].
    apply Hnotin, in_or_app. now right.
Qed.

(** X14.  The drain loop clicks at most [max_pages * 3] items, none at all
    when [max_pages] is zero or negative, and it only stops short of that
    number when the queue is empty. *)
Theorem X14_drain_budget (max_pages : Z) (st : Exploration.State) :
  NoDup (Exploration.visited_items st) ->
  Exploration.clicked st = [] ->
  let st' := Exploration._explore_all_items urlparse click max_pages st in
  (Z.of_nat (length (Exploration.clicked st')) <= Z.max 0 (max_pages * 3))%Z
  /\ (Exploration.pending_items st' = []
      \/ Z.of_nat (length (Exploration.clicked st')) = Z.max 0 (max_pages * 3))%Z.
Proof.
  intros Hnd Hempty. cbv zeta. unfold Exploration._explore_all_items.
  destruct (drain_spec (Z.to_nat (max_pages * 3)) 0 st Hnd)
    as (new & Hcl & _ & _ & Hlen & Hend).
  rewrite Hempty in Hcl. cbn in Hcl. rewrite Hcl. split; [lia|].
  destruct Hend as [Hend|Hend]; [now left|right; lia].
Qed.

End Drain.

(** Two queued items whose clicks fail: both are tried once. *)
Lemma X13_no_item_clicked_twice_witness :
  let st' := Exploration._explore_all_items UrlLib.urlparse
               MoreSamples.failing_click 10 MoreSamples.idle_explorer in
  NoDup (keys_of (Exploration.clicked st'))
  /\ (forall item, In item (Exploration.clicked st') ->
        ~ In (Exploration.item_key item)
             (Exploration.visited_items MoreSamples.idle_explorer)
        /\ In (Exploration.item_key item) (Exploration.visited_items st'))
  /\ Exploration.visited_items st'
     = Exploration.visited_items MoreSamples.idle_explorer
       ++ keys_of (Exploration.clicked st').
Proof.
  apply (X13_no_item_clicked_twice UrlLib.urlparse MoreSamples.failing_click 10
           MoreSamples.idle_explorer); [constructor|reflexivity].
Defined.

(** The same queue with a budget of three clicks. *)
Lemma X14_drain_budget_witness :
  let st' := Exploration._explore_all_items UrlLib.urlparse
               MoreSamples.failing_click 1 MoreSamples.idle_explorer in
  (Z.of_nat (length (Exploration.clicked st')) <= Z.max 0 (1 * 3))%Z
  /\ (Exploration.pending_items st' = []
      \/ Z.of_nat (length (Exploration.clicked st')) = Z.max 0 (1 * 3))%Z.
Proof.
  apply (X14_drain_budget UrlLib.urlparse MoreSamples.failing_click 1
           MoreSamples.idle_explorer); [constructor|reflexivity].
Defined.

(** ** Action executor: what a command can do *)

Lemma int_of_digits_acc_nonneg (s : string) :
  forall acc, (0 <= acc)%Z -> (0 <= PyStr.int_of_digits_acc acc s)%Z.
Proof.
  induction s as [|c s IH]; intros acc Hacc;
    cbn [PyStr.int_of_digits_acc]; [exact Hacc|].
  apply IH. lia.
Qed.

Lemma int_of_digits_nonneg (s : string) : (0 <= PyStr.int_of_digits s)%Z.
Proof.
  apply int_of_digits_acc_nonneg. lia.
Qed.

Section ExecuteCases.

Variable page : ActionExecutor.PageOracle.
Variable tag_to_xpath : Z -> option string.

(** Every outcome of [execute] is the outcome of one of its branches. *)
Lemma execute_cases (P : ActionExecutor.Outcome -> Prop) :
  P (ActionExecutor.mkOutcome true ActionExecutor.TaskDone []) ->
  P (ActionExecutor.mkOutcome false ActionExecutor.ManualDone
       [ActionExecutor.EPrompt; ActionExecutor.ESleep 1000]) ->
  (forall n, (0 <= n <= 30)%Z ->
     P (ActionExecutor.mkOutcome false (ActionExecutor.Waited n)
          [ActionExecutor.ESleep (n * 1000)])) ->
  (forall tag_id, P (ActionExecutor._click page tag_to_xpath tag_id)) ->
  (forall tag_id text, P (ActionExecutor._type page tag_to_xpath tag_id text)) ->
  (forall direction, P (ActionExecutor._scroll page direction)) ->
  (forall url, P (ActionExecutor._goto page url)) ->
  (forall action, P (ActionExecutor.mkOutcome false (ActionExecutor.CannotParse action) [])) ->
  forall action, P (ActionExecutor.execute page tag_to_xpath action).
Proof.
  intros Hdone Hpause Hwait Hclick Htype Hscroll Hgoto Hnone action.
  unfold ActionExecutor.execute.
  destruct (ActionExecutor.search ActionExecutor.DONE_PATTERN _); [exact Hdone|].
  destruct (ActionExecutor.search ActionExecutor.PAUSE_PATTERN _); [exact Hpause|].
  destruct (ActionExecutor.search ActionExecutor.WAIT_PATTERN _) as [group1|].
  { apply Hwait. destruct group1 as [digits|]; [|lia].
    pose proof (int_of_digits_nonneg digits). lia. }
  destruct (ActionExecutor.search ActionExecutor.CLICK_PATTERN _); [apply Hclick|].
  destruct (ActionExecutor.search ActionExecutor.TYPE_PATTERN _) as [[d t]|];
    [apply Htype|].
  destruct (ActionExecutor.search ActionExecutor.SCROLL_PATTERN _); [apply Hscroll|].
  destruct (ActionExecutor.search ActionExecutor.GOTO_PATTERN _);
    [apply Hgoto|apply Hnone].
Qed.

(** X15.  Whatever the action says, [execute] never sleeps longer than
    thirty seconds at a time: every sleep among its effects lasts between
    0 and 30000 milliseconds. *)
Theorem X15_sleeps_are_bounded (action : string) :
  Forall (fun ms => (0 <= ms <= 30000)%Z)
         (sleeps (ActionExecutor.effects
                    (ActionExecutor.execute page tag_to_xpath action))).
Proof.
  apply execute_cases; clear action.
  - constructor.
  - cbn. repeat constructor; lia.
  - intros n Hn. cbn. repeat constructor; lia.
  - intros tag_id. unfold ActionExecutor._click.
    destruct (ActionExecutor.lookup tag_to_xpath tag_id); [|constructor].
    destruct (ActionExecutor.click_raises page s); cbn; repeat constructor; lia.
  - intros tag_id text. unfold ActionExecutor._type.
    destruct (ActionExecutor.lookup tag_to_xpath tag_id); [|constructor].
    destruct (ActionExecutor.clear_raises page s); [constructor|].
    destruct (ActionExecutor.fill_raises page s text); cbn;
      repeat constructor; lia.
  - intros direction. unfold ActionExecutor._scroll.
    destruct (ActionExecutor.wheel_raises page _); cbn; repeat constructor; lia.
  - intros url. unfold ActionExecutor._goto.
    destruct (ActionExecutor.goto_raises page _); cbn; repeat constructor; lia.
  - intros a. constructor.
Qed.

(** X16.  [execute] only navigates to absolute web addresses: every URL it
    hands to the browser starts with http:// or https://, the latter being
    put in front of an address that has neither. *)
Theorem X16_navigations_are_absolute (action : string) :
  Forall (fun url =>
            PyStr.startswith "http://" url || PyStr.startswith "https://" url = true)
         (navigations (ActionExecutor.effects
                         (ActionExecutor.execute page tag_to_xpath action))).
Proof.
  apply execute_cases; clear action; try (intros; now constructor).
  - intros tag_id. unfold ActionExecutor._click.
    destruct (ActionExecutor.lookup tag_to_xpath tag_id); [|constructor].
    destruct (ActionExecutor.click_raises page s); constructor.
  - intros tag_id text. unfold ActionExecutor._type.
    destruct (ActionExecutor.lookup tag_to_xpath tag_id); [|constructor].
    destruct (ActionExecutor.clear_raises page s); [constructor|].
    destruct (ActionExecutor.fill_raises page s text); constructor.
  - intros direction. unfold ActionExecutor._scroll.
    destruct (ActionExecutor.wheel_raises page _); constructor.
  - intros url. unfold ActionExecutor._goto.
    set (target := if PyStr.startswith "http://" url
                      || PyStr.startswith "https://" url
                   then url else String.append "https://" url).
    assert (Ht : PyStr.startswith "http://" target
                 || PyStr.startswith "https://" target = true).
    { subst target.
      destruct (PyStr.startswith "http://" url || PyStr.startswith "https://" url)
        eqn:E; [exact E|].
      apply orb_true_iff. right. apply (startswith_app "https://" url). }
    destruct (ActionExecutor.goto_raises page target); cbn;
      repeat constructor; exact Ht.
Qed.

(** X17.  [execute] only touches elements of the tag map: every locator it
    clicks, clears or fills is a non-empty XPath that the map gives for
    some tag, so an action naming an unknown tag touches nothing. *)
Theorem X17_only_tagged_elements_touched (action : string) :
  Forall (fun x => x <> EmptyString /\ exists tag, tag_to_xpath tag = Some x)
         (touched (ActionExecutor.effects
                     (ActionExecutor.execute page tag_to_xpath action))).
Proof.
  assert (Hlook : forall tag x,
             ActionExecutor.lookup tag_to_xpath tag = Some x ->
             x <> EmptyString /\ exists t, tag_to_xpath t = Some x).
  { intros tag x. unfold ActionExecutor.lookup.
    destruct (tag_to_xpath tag) as [y|] eqn:E; [|discriminate].
    destruct y; cbn; [discriminate|]. intros [= <-].
    split; [discriminate|now exists tag]. }
  apply execute_cases; clear action; try (intros; now constructor).
  - intros tag_id. unfold ActionExecutor._click.
    destruct (ActionExecutor.lookup tag_to_xpath tag_id) as [x|] eqn:E;
      [|constructor].
    apply Hlook in E.
    destruct (ActionExecutor.click_raises page x); cbn; repeat constructor;
      apply E.
  - intros tag_id text. unfold ActionExecutor._type.
    destruct (ActionExecutor.lookup tag_to_xpath tag_id) as [x|] eqn:E;
      [|constructor].
    apply Hlook in E.
    destruct (ActionExecutor.clear_raises page x);
      [cbn; repeat constructor; apply E|].
    destruct (ActionExecutor.fill_raises page x text); cbn; repeat constructor;
      apply E.
  - intros direction. unfold ActionExecutor._scroll.
    destruct (ActionExecutor.wheel_raises page _); constructor.
  - intros url. unfold ActionExecutor._goto.
    destruct (ActionExecutor.goto_raises page _); constructor.
Qed.

End ExecuteCases.






(** ** Task executor loop: what every live run satisfies *)

Section LiveRuns.

Variable s : WebAgent.Session.

Lemma live_loop_history (remaining : nat) :
  forall (step : nat) (history : list WebAgent.HistoryEntry),
    let r := WebAgent.live_loop s remaining step history in
    exists new,
      snd r = history ++ new
      /\ length new <= remaining
      /\ map WebAgent.entry_step new = seq (S step) (length new)
      /\ Forall (fun e => WebAgent.entry_action e
                          = WebAgent.llm_action s (WebAgent.entry_step e)) new
      /\ existsb (fun e => mentions_done (WebAgent.entry_action e)) new
         = is_completed (fst r)
      /\ match fst r with
         | WebAgent.Completed k => k = step + length new /\ 0 < length new
         | WebAgent.MaxStepsReached m => m = WebAgent._max_steps
         | WebAgent.NoBrowser => True
         end.
Proof.
  induction remaining as [|remaining IH]; intros step history; cbn zeta.
  - exists []. cbn. rewrite app_nil_r. repeat split; auto.
  - cbn [WebAgent.live_loop].
    destruct (WebAgent.running s step);
      [|exists []; cbn; rewrite app_nil_r; repeat split; auto; lia].
    destruct (WebAgent.page_at s (S step)) as [page|];
      [|exists []; cbn; rewrite app_nil_r; repeat split; auto; lia].
    pose proof (execute_done page (WebAgent.tags_at s (S step))
                  (WebAgent.llm_action s (S step))) as Hex.
    set (out := ActionExecutor.execute page (WebAgent.tags_at s (S step))
                  (WebAgent.llm_action s (S step))) in *.
    set (entry := WebAgent.mkEntry (S step) (WebAgent.url_at s (S step))
                    (WebAgent.llm_action s (S step)) (ActionExecutor.message out)).
    destruct (mentions_done (WebAgent.llm_action s (S step))) eqn:Hd.
    + rewrite Hex. cbn [ActionExecutor.done fst snd].
      exists [entry]. subst entry. cbn -[mentions_done ActionExecutor.execute].
      rewrite Hd. repeat split; auto; try lia.
    + rewrite Hex.
      destruct (IH (S step) (history ++ [entry]))
        as (new & Hsnd & Hlen & Hsteps & Hact & Hdone & Hres).
      exists (entry :: new). rewrite Hsnd, <- app_assoc. subst entry.
      cbn -[mentions_done ActionExecutor.execute].
      rewrite Hd, Hsteps, Hdone. cbn -[mentions_done ActionExecutor.execute].
      split; [reflexivity|]. split; [lia|]. split; [reflexivity|].
      split; [now constructor|]. split; [reflexivity|].
      destruct (fst (WebAgent.live_loop s remaining (S step) _)); auto. lia.
Qed.

(** X19.  Every live run, whatever the browser and the model do, records
    at most 20 steps, numbered 1, 2, 3, ... in order, each with the action
    the model answered at that step; the run is reported completed exactly
    when a recorded action mentions DONE, and then the reported number of
    steps is the number of recorded steps. *)
Theorem X19_live_run_history :
  let run := WebAgent._execute_without_memory s in
  length (snd run) <= 20
  /\ map WebAgent.entry_step (snd run) = seq 1 (length (snd run))
  /\ Forall (fun e => WebAgent.entry_action e
                      = WebAgent.llm_action s (WebAgent.entry_step e)) (snd run)
  /\ existsb (fun e => mentions_done (WebAgent.entry_action e)) (snd run)
     = is_completed (fst run)
  /\ match fst run with
     | WebAgent.Completed k => k = length (snd run) /\ 1 <= k <= 20
     | WebAgent.MaxStepsReached m => m = 20
     | WebAgent.NoBrowser => True
     end.
Proof.
  cbv zeta. unfold WebAgent._execute_without_memory.
  destruct (live_loop_history WebAgent._max_steps 0 [])
    as (new & Hsnd & Hlen & Hsteps & Hact & Hdone & Hres).
  cbn [app] in Hsnd. rewrite Hsnd.
  split; [exact Hlen|]. split; [exact Hsteps|]. split; [exact Hact|].
  split; [exact Hdone|].
  destruct (fst (WebAgent.live_loop s WebAgent._max_steps 0 [])); auto.
  destruct Hres as [-> Hpos]. cbn. unfold WebAgent._max_steps in Hlen. lia.
Qed.

End LiveRuns.

(** ** Task executor loop: planned execution *)

Section PlannedRuns.

Variable ps : PlannedRun.PlanSession.
Variable live : WebAgent.Session.

Lemma plan_loop_bound (total : nat) (steps : list json) :
  forall i executed,
    let r := PlannedRun.plan_loop ps live total steps i executed in
    executed <= snd r <= executed + length steps
    /\ match fst r with
       | PlannedRun.PlanFinished t =>
           t = total /\ snd r = executed + length steps
           /\ forallb is_dict steps = true
       | PlannedRun.PlanRaises => forallb is_dict steps = false
       | _ => True
       end.
Proof.
  induction steps as [|step rest IH]; intros i executed; cbn zeta.
  - cbn. repeat split; lia.
  - destruct step; cbn [PlannedRun.plan_loop fst snd length forallb is_dict andb];
      try (split; [lia|reflexivity]).
    destruct (PlannedRun.mentions_fail _); cbn [fst snd]; [split; [lia|exact I]|].
    destruct (ActionExecutor.done _); cbn [fst snd]; [split; [lia|exact I]|].
    destruct (IH (S i) (S executed)) as [Hb Hr].
    split; [lia|].
    destruct (fst (PlannedRun.plan_loop ps live total rest (S i) (S executed)));
      auto.
    destruct Hr as (Ht & Hs & Hd). repeat split; auto. lia.
Qed.


Lemma plan_loop_switch (total : nat) (steps : list json) :
  forall i executed k,
    1 <= k <= length steps ->
    forallb is_dict (firstn k steps) = true ->
    (forall j, i < j < i + k ->
       PlannedRun.mentions_fail (PlannedRun.chat_reply ps j) = false
       /\ mentions_done (PlannedRun.chat_reply ps j) = false) ->
    PlannedRun.mentions_fail (PlannedRun.chat_reply ps (i + k)) = true ->
    PlannedRun.plan_loop ps live total steps i executed
    = (PlannedRun.SwitchedToLive (WebAgent._execute_without_memory live),
       executed + (k - 1)).
Proof.
  induction steps as [|step rest IH]; intros i executed k Hk Hdict Hquiet Hfail;
    [cbn in Hk; lia|].
  destruct k as [|k]; [lia|].
  cbn [firstn forallb] in Hdict. apply andb_true_iff in Hdict as [Hstep Hdict].
  destruct step; try discriminate. cbn [PlannedRun.plan_loop].
  destruct k as [|k].
  - replace (i + 1) with (S i) in Hfail by lia. rewrite Hfail.
    f_equal. lia.
  - destruct (Hquiet (S i)) as [Hnf Hnd]; [lia|]. rewrite Hnf.
    pose proof (execute_done (PlannedRun.plan_page ps (S i))
                  (PlannedRun.plan_tags ps (S i))
                  (PlannedRun.chat_reply ps (S i))) as Hex.
    rewrite Hnd in Hex. rewrite Hex.
    rewrite (IH (S i) (S executed) (S k)).
    + f_equal. lia.
    + cbn [length] in Hk. lia.
    + exact Hdict.
    + intros j Hj. apply Hquiet. lia.
    + replace (S i + S k) with (i + S (S k)) by lia. exact Hfail.
Qed.

(** X21.  When the model answers FAIL (in any position of its answer) at
    step [k] of a plan, after [k - 1] steps that neither failed nor
    finished, the planned run stops there and the result of the whole task
    is the result of a fresh live run, with its own budget of 20 steps;
    the steps of the plan after [k] are never looked at. *)
Theorem X21_fail_switches_to_live (plan : dict) (steps : list json) (k : nat) :
  PlannedRun.iterate (dict_get_default plan "plan" (JArr [])) = Some steps ->
  1 <= k <= length steps ->
  forallb is_dict (firstn k steps) = true ->
  (forall j, 1 <= j < k ->
     PlannedRun.mentions_fail (PlannedRun.chat_reply ps j) = false
     /\ mentions_done (PlannedRun.chat_reply ps j) = false) ->
  PlannedRun.mentions_fail (PlannedRun.chat_reply ps k) = true ->
  PlannedRun._execute_with_plan ps live plan
  = (PlannedRun.SwitchedToLive (WebAgent._execute_without_memory live), k - 1).
Proof.
  intros Hit Hk Hdict Hquiet Hfail. unfold PlannedRun._execute_with_plan.
  rewrite Hit.
  rewrite (plan_loop_switch (length steps) steps 0 0 k); auto;
    intros j Hj; apply Hquiet; lia.
Qed.

Lemma plan_loop_of_dicts (total : nat) (steps : list json) :
  forallb is_dict steps = true ->
  forall i executed,
    fst (PlannedRun.plan_loop ps live total steps i executed)
    <> PlannedRun.PlanRaises.
Proof.
  intros Hd i executed Hr.
  destruct (plan_loop_bound total steps i executed) as [_ H].
  rewrite Hr in H. congruence.
Qed.

(** X22.  The planned branch prints the steps before it executes them: a
    plan with a step that is not an object or lacks the key step or
    action_detail raises there, before any command is executed; a plan
    that passes the printing cannot raise on a malformed step
    afterwards. *)
Theorem X22_plan_is_checked_by_printing (plan : dict) :
  let r := PlannedRun.announce_and_execute ps live plan in
  match PlannedRun.iterate (dict_get_default plan "plan" (JArr [])) with
  | None => r = (PlannedRun.PlanRaises, 0)
  | Some steps =>
      if forallb PlannedRun.printable steps
      then fst r <> PlannedRun.PlanRaises
      else r = (PlannedRun.PlanRaises, 0)
  end.
Proof.
  cbv zeta. unfold PlannedRun.announce_and_execute.
  destruct (PlannedRun.iterate _) as [steps|] eqn:Hit; [|reflexivity].
  destruct (forallb PlannedRun.printable steps) eqn:Hp; [|reflexivity].
  unfold PlannedRun._execute_with_plan. rewrite Hit.
  apply plan_loop_of_dicts.
  apply forallb_forall. intros v Hv.
  rewrite forallb_forall in Hp. specialize (Hp v Hv).
  now destruct v.
Qed.

End PlannedRuns.

(** A three-step plan whose second step cannot be resolved. *)
Lemma X21_fail_switches_to_live_witness :
  PlannedRun._execute_with_plan (MoreSamples.plan_session 2)
    (Samples.constant_session "SCROLL DOWN") MoreSamples.three_step_plan
  = (PlannedRun.SwitchedToLive
       (WebAgent._execute_without_memory (Samples.constant_session "SCROLL DOWN")),
     2 - 1).
Proof.
  apply (X21_fail_switches_to_live (MoreSamples.plan_session 2)
           (Samples.constant_session "SCROLL DOWN") MoreSamples.three_step_plan
           [MoreSamples.step 1; MoreSamples.step 2; MoreSamples.step 3] 2).
  - reflexivity.
  - cbn. lia.
  - reflexivity.
  - intros j Hj. assert (j = 1) as -> by lia. split; reflexivity.
  - reflexivity.
Defined.

(** ** Task executor loop: the confidence of a plan *)

Section Confidence.

Variable json_loads : string -> option dict.

(** X23.  A reply to the planning prompt that cannot be used (the model
    raised, answered nothing, or no text between the first opening and the
    last closing brace decodes) never starts a planned run and never makes
    [execute_task] fail: with the browser started the task goes to live
    execution, whatever the state of the memory. *)
Theorem X23_unusable_plan_runs_live (self : WebAgent.Agent) (plan_reply : LLMOutcome) :
  WebAgent.page_started self = true ->
  (forall response text,
     plan_reply = LLMReturns (Some response) ->
     greedy_span response text -> json_loads text = None) ->
  WebAgent.execute_task json_loads self plan_reply = WebAgent.LiveExecution.
Proof.
  intros Hpage Hbad. unfold WebAgent.execute_task. rewrite Hpage. cbn [negb].
  destruct (_ && _ && _); [|reflexivity].
  unfold MemoryBasedPlanner.plan_task.
  destruct (parse_or_default_spec json_loads MemoryBasedPlanner.cannot_plan plan_reply)
    as [(r & t & Ho & Hg & Hj) | (Hd & _)].
  - rewrite (Hbad r t Ho Hg) in Hj. discriminate.
  - rewrite Hd. reflexivity.
Qed.

(** X24.  A decoded plan with a truthy can_plan whose confidence is there
    but is not a number (null, a string, a list or an object) makes
    [execute_task] raise a TypeError at the comparison with 0.6; it does
    not fall back to live execution. *)
Theorem X24_confidence_must_be_a_number
  (self : WebAgent.Agent) (plan_reply : LLMOutcome) (can_plan confidence : json) :
  WebAgent.page_started self = true ->
  WebAgent._use_memory self = true ->
  WebAgent.current_site self <> None ->
  WebAgent.planner self = true ->
  let plan := MemoryBasedPlanner.plan_task json_loads plan_reply in
  dict_get plan "can_plan" = Some can_plan ->
  json_truthy can_plan = true ->
  dict_get plan "confidence" = Some confidence ->
  is_number confidence = false ->
  WebAgent.execute_task json_loads self plan_reply = WebAgent.RaisesTypeError.
Proof.
  intros Hpage Hmem Hsite Hplanner plan Hcan Htruthy Hconf Hnum.
  unfold WebAgent.execute_task. rewrite Hpage, Hmem, Hplanner.
  destruct (WebAgent.current_site self); [|congruence]. cbn [negb andb].
  fold plan. unfold WebAgent.select_mode, dict_get_default.
  rewrite Hcan, Htruthy, Hconf.
  destruct confidence; try discriminate; reflexivity.
Qed.

End Confidence.

(** A reply without braces. *)
Lemma X23_unusable_plan_runs_live_witness :
  WebAgent.execute_task (fun _ => None) Samples.ready_agent
    (LLMReturns (Some "I cannot plan this."))
  = WebAgent.LiveExecution.
Proof.
  apply (X23_unusable_plan_runs_live (fun _ => None) Samples.ready_agent
           (LLMReturns (Some "I cannot plan this."))).
  - reflexivity.
  - intros response text _ _. reflexivity.
Defined.

(** A plan whose confidence is the string high. *)
Lemma X24_confidence_must_be_a_number_witness :
  WebAgent.execute_task
    (Samples.loads_as [("can_plan", JBool true); ("confidence", JStr "high")])
    Samples.ready_agent (LLMReturns (Some "{}"))
  = WebAgent.RaisesTypeError.
Proof.
  apply (X24_confidence_must_be_a_number
           (Samples.loads_as [("can_plan", JBool true); ("confidence", JStr "high")])
           Samples.ready_agent (LLMReturns (Some "{}"))
           (JBool true) (JStr "high"));
    solve [reflexivity | discriminate].
Defined.
